(** * salt/modules/napalm_acl.py (the [netacl] execution module)

    A shallow embedding of the module and the proofs of its specification.
    The module is glue: it resolves a Capirca platform name from the device
    grains, asks the Capirca integration ([capirca.get_*_config]) for the
    configuration text and hands that text to [net.load_config].

    Modelling choices:
    - Python values are the inductive [pyval] (floats are left out);
      truthiness is [truthy].
    - Strings are byte strings ([string] of the Standard Library), and
      [str.lower] lowers the ASCII letters, as Python 2's [str.lower] does
      in the C locale.
    - [__grains__] and keyword arguments ([**kwargs]) are [gmap string pyval].
    - A Python exception is the [Raise] branch of [result].
    - [__salt__] is a dispatcher from an invocation (function name, positional
      arguments, keyword arguments) to an outcome on an abstract world; every
      invocation is recorded in a call log, which is ghost state used to say
      which collaborators a function reaches. *)

From Stdlib Require Import ZArith String Ascii List Bool Lia.
From stdpp Require Import base option gmap strings list fin_maps.

Import ListNotations.
Local Open Scope string_scope.
Local Open Scope Z_scope.

(** ** Python values *)

#[local] Set Warnings "-register-all,-clear-no-such-hyp".

Inductive pyval : Type :=
| PyNone
| PyBool (b : bool)
| PyInt (z : Z)
| PyStr (s : string)
| PyList (l : list pyval)
| PyTuple (l : list pyval)
| PyDict (d : list (pyval * pyval)).

(** [bool(v)]: what [if not v] tests. *)
Definition truthy (v : pyval) : bool :=
  match v with
  | PyNone => false
  | PyBool b => b
  | PyInt z => negb (z =? 0)
  | PyStr s => negb (String.eqb s "")
  | PyList l => match l with [] => false | _ => true end
  | PyTuple l => match l with [] => false | _ => true end
  | PyDict d => match d with [] => false | _ => true end
  end.

Definition is_list (v : pyval) : bool :=
  match v with PyList _ => true | _ => false end.

Definition is_str (v : pyval) : bool :=
  match v with PyStr _ => true | _ => false end.

(** ** Exceptions and results *)

Inductive exn : Type :=
| KeyError (key : string)
| AttributeError (attr : string)
| TypeError
| Raised (payload : pyval).   (* an exception raised inside a collaborator *)

Inductive result (A : Type) : Type :=
| Ok (a : A)
| Raise (e : exn).
Arguments Ok {A} a.
Arguments Raise {A} e.

#[global] Instance result_ret : MRet result := fun A a => Ok a.
#[global] Instance result_bind : MBind result := fun A B f m =>
  match m with
  | Ok a => f a
  | Raise e => Raise e
  end.

(** ** Strings: [str.lower] and [sub in s] *)

Definition ascii_lower (c : ascii) : ascii :=
  let n := N_of_ascii c in
  if ((65 <=? n) && (n <=? 90))%N then ascii_of_N (n + 32) else c.

Fixpoint lower (s : string) : string :=
  match s with
  | EmptyString => EmptyString
  | String c s' => String (ascii_lower c) (lower s')
  end.

Fixpoint startswith (p s : string) : bool :=
  match p, s with
  | EmptyString, _ => true
  | String _ _, EmptyString => false
  | String a p', String b s' => Ascii.eqb a b && startswith p' s'
  end.

(** [sub in s] on strings: [sub] occurs in [s] at some offset. *)
Fixpoint contains (sub s : string) : bool :=
  startswith sub s ||
  match s with
  | EmptyString => false
  | String _ s' => contains sub s'
  end.

(** ** The platform resolver *)

Module Resolver.

(** [d[k]] on a dict with string keys. *)
Definition getitem (d : gmap string pyval) (k : string) : result pyval :=
  match d !! k with
  | Some v => Ok v
  | None => Raise (KeyError k)
  end.

(** [v.lower()]: only strings have the method. *)
Definition str_lower (v : pyval) : result string :=
  match v with
  | PyStr s => Ok (lower s)
  | _ => Raise (AttributeError "lower")
  end.

Definition _get_capirca_platform (__grains__ : gmap string pyval) : result string :=
  vendor ← getitem __grains__ "vendor" ≫= str_lower;
  os_ ← getitem __grains__ "os" ≫= str_lower;
  model ← getitem __grains__ "model" ≫= str_lower;
  if String.eqb vendor "juniper" && contains "srx" model then Ok "junipersrx"
  else if String.eqb vendor "cisco" && String.eqb os_ "ios" then Ok "cisco"
  else if String.eqb vendor "cisco" && String.eqb os_ "iosxr" then Ok "ciscoxr"
  else if String.eqb vendor "cisco" && String.eqb os_ "asa" then Ok "ciscoasa"
  else if String.eqb os_ "linux" then Ok "iptables"
  else if String.eqb vendor "palo alto networks" then Ok "paloaltofw"
  else Ok vendor.

(** Fully populated device facts: the three keys are present and hold
    strings. *)
Definition populated (g : gmap string pyval) (vendor os_ model : string) : Prop :=
  g !! "vendor" = Some (PyStr vendor) ∧
  g !! "os" = Some (PyStr os_) ∧
  g !! "model" = Some (PyStr model).

Definition facts (vendor os_ model : string) : gmap string pyval :=
  <["vendor" := PyStr vendor]> (<["os" := PyStr os_]> (<["model" := PyStr model]> ∅)).

(** The rule table of the specification: one row per rule, a row being a
    test on the lowercased (vendor, os, model) and the platform it yields.
    [first_match] takes the first row whose test holds. *)
Definition rule : Type := (string → string → string → bool) * string.

Definition rule_table : list rule :=
  [ (λ v _ m, String.eqb v "juniper" && contains "srx" m, "junipersrx");
    (λ v o _, String.eqb v "cisco" && String.eqb o "ios", "cisco");
    (λ v o _, String.eqb v "cisco" && String.eqb o "iosxr", "ciscoxr");
    (λ v o _, String.eqb v "cisco" && String.eqb o "asa", "ciscoasa");
    (λ _ o _, String.eqb o "linux", "iptables");
    (λ v _ _, String.eqb v "palo alto networks", "paloaltofw") ].

Fixpoint first_match (rules : list rule) (v o m : string) : option string :=
  match rules with
  | [] => None
  | (test, platform) :: rest =>
      if test v o m then Some platform else first_match rest v o m
  end.

End Resolver.

(** ** Calls through [__salt__] *)

(** One call through [__salt__]: the function name, the positional
    arguments and the keyword arguments. *)
Record invocation : Type := Invocation {
  fn : string;
  args : list pyval;
  kwargs : gmap string pyval
}.

(** Keyword arguments written out at a call site: [f(k1=v1, k2=v2, ...)]. *)
Definition keywords (l : list (string * pyval)) : gmap string pyval :=
  list_to_map l.

(** The value bound to an optional parameter: the caller's keyword when
    given, the default of the signature otherwise. *)
Definition kwarg (kw : gmap string pyval) (name : string) (dflt : pyval) : pyval :=
  default dflt (kw !! name).

(** The keywords a signature does not name: what [**kwargs] collects. *)
Definition extra_keywords (named : list string) (kw : gmap string pyval)
  : gmap string pyval :=
  filter (λ kv, kv.1 ∉ named) kw.

(** A parameter that the caller passed positionally must not be passed by
    keyword as well: Python rejects the call before the body runs. *)
Definition positional (names : list string) (kw : gmap string pyval) : result unit :=
  if forallb (λ k, bool_decide (kw !! k = None)) names
  then Ok tt else Raise TypeError.

(** A signature without [**kwargs] rejects the keywords it does not name. *)
Definition no_var_keyword (named : list string) (kw : gmap string pyval) : result unit :=
  if bool_decide (dom (extra_keywords named kw) = (∅ : gset string))
  then Ok tt else Raise TypeError.

Module Netacl.

Definition __virtualname__ : string := "netacl".

(** The module-level [try: import ... except ImportError] blocks:
    [importable] says which imports succeed. *)
Definition HAS_CAPIRCA (importable : string → bool) : bool :=
  forallb importable
    ["capirca"; "capirca.aclgen"; "capirca.lib.policy"; "capirca.lib.aclgenerator"].

Definition HAS_NAPALM (importable : string → bool) : bool :=
  importable "napalm_base".

(** The backslash at the end of the first line of the message continues the
    literal: the indentation of the second line is part of the string. *)
Definition unavailable_message : string :=
  "The netacl (napalm_acl) module cannot be loaded:                 Please install capirca and napalm.".

Definition __virtual__ (has_capirca has_napalm : bool) : pyval :=
  if has_capirca && has_napalm
  then PyStr __virtualname__
  else PyTuple [PyBool false; PyStr unavailable_message].

(** Modelled from the spec: the loader ([salt/loader.py], not under src/)
    reads the value of [__virtual__]; a string registers the module under
    that name, a tuple that starts with [False] does not. *)
Definition registered_as (v : pyval) : option string :=
  match v with
  | PyStr name => Some name
  | _ => None
  end.

Definition load_term_config_named : list string :=
  ["filter_options"; "pillar_key"; "pillarenv"; "saltenv"; "merge_pillar";
   "revision_id"; "revision_no"; "revision_date"; "revision_date_format";
   "test"; "commit"; "debug"; "source_service"; "destination_service"].

Definition load_filter_config_named : list string :=
  ["filter_options"; "terms"; "prepend"; "pillar_key"; "pillarenv"; "saltenv";
   "merge_pillar"; "only_lower_merge"; "revision_id"; "revision_no";
   "revision_date"; "revision_date_format"; "test"; "commit"; "debug"].

Definition load_policy_config_named : list string :=
  ["filters"; "prepend"; "pillar_key"; "pillarenv"; "saltenv"; "merge_pillar";
   "only_lower_merge"; "revision_id"; "revision_no"; "revision_date";
   "revision_date_format"; "test"; "commit"; "debug"].

Definition get_pillar_named : list string :=
  ["pillar_key"; "pillarenv"; "saltenv"].

(** The defaults that the signatures declare, parameter by parameter. *)
Definition load_term_config_defaults : list (string * pyval) :=
  [("filter_options", PyNone); ("pillar_key", PyStr "acl"); ("pillarenv", PyNone);
   ("saltenv", PyNone); ("merge_pillar", PyBool true); ("revision_id", PyNone);
   ("revision_no", PyNone); ("revision_date", PyBool true);
   ("revision_date_format", PyStr "%Y/%m/%d"); ("test", PyBool false);
   ("commit", PyBool true); ("debug", PyBool false); ("source_service", PyNone);
   ("destination_service", PyNone)].

Definition load_filter_config_defaults : list (string * pyval) :=
  [("filter_options", PyNone); ("terms", PyNone); ("prepend", PyBool true);
   ("pillar_key", PyStr "acl"); ("pillarenv", PyNone); ("saltenv", PyNone);
   ("merge_pillar", PyBool true); ("only_lower_merge", PyBool false);
   ("revision_id", PyNone); ("revision_no", PyNone); ("revision_date", PyBool true);
   ("revision_date_format", PyStr "%Y/%m/%d"); ("test", PyBool false);
   ("commit", PyBool true); ("debug", PyBool false)].

Definition load_policy_config_defaults : list (string * pyval) :=
  [("filters", PyNone); ("prepend", PyBool true); ("pillar_key", PyStr "acl");
   ("pillarenv", PyNone); ("saltenv", PyNone); ("merge_pillar", PyBool true);
   ("only_lower_merge", PyBool false); ("revision_id", PyNone);
   ("revision_no", PyNone); ("revision_date", PyBool true);
   ("revision_date_format", PyStr "%Y/%m/%d"); ("test", PyBool false);
   ("commit", PyBool true); ("debug", PyBool false)].

Definition get_pillar_defaults : list (string * pyval) :=
  [("pillar_key", PyStr "acl"); ("pillarenv", PyNone); ("saltenv", PyNone)].

Section Functions.

Context {World : Type}.

(** The ambient names of a loaded execution module. *)
Variable __salt__ : invocation → World → result pyval * World.
Variable __grains__ : gmap string pyval.
(** Bound by the [proxy_napalm_wrap] decorator before the body runs. *)
Variable napalm_device : pyval.

(** The state a call runs on: the collaborators' world and the log of the
    invocations made so far. *)
Record state : Type := State {
  world : World;
  calls : list invocation
}.

Definition M (A : Type) : Type := state → result A * state.

#[export] Instance M_ret : MRet M := λ A a s, (Ok a, s).
#[export] Instance M_bind : MBind M := λ A B f m s,
  match m s with
  | (Ok a, s') => f a s'
  | (Raise e, s') => (Raise e, s')
  end.

Definition lift {A} (r : result A) : M A := λ s, (r, s).

Definition call (f : string) (a : list pyval) (k : gmap string pyval) : M pyval :=
  λ s,
    let inv := Invocation f a k in
    let '(r, w) := __salt__ inv (world s) in
    (r, State w (calls s ++ [inv])).

Definition load_term_config (filter_name term_name : pyval)
    (kw : gmap string pyval) : M pyval :=
  _ ← lift (positional ["filter_name"; "term_name"] kw);
  let filter_options := kwarg kw "filter_options" PyNone in
  let pillar_key := kwarg kw "pillar_key" (PyStr "acl") in
  let pillarenv := kwarg kw "pillarenv" PyNone in
  let saltenv := kwarg kw "saltenv" PyNone in
  let merge_pillar := kwarg kw "merge_pillar" (PyBool true) in
  let revision_id := kwarg kw "revision_id" PyNone in
  let revision_no := kwarg kw "revision_no" PyNone in
  let revision_date := kwarg kw "revision_date" (PyBool true) in
  let revision_date_format := kwarg kw "revision_date_format" (PyStr "%Y/%m/%d") in
  let test := kwarg kw "test" (PyBool false) in
  let commit := kwarg kw "commit" (PyBool true) in
  let debug := kwarg kw "debug" (PyBool false) in
  let source_service := kwarg kw "source_service" PyNone in
  let destination_service := kwarg kw "destination_service" PyNone in
  let term_fields := extra_keywords load_term_config_named kw in
  let filter_options :=
    if negb (truthy filter_options) then PyList [] else filter_options in
  platform ← lift (Resolver._get_capirca_platform __grains__);
  term_config ← call "capirca.get_term_config"
    [PyStr platform; filter_name; term_name]
    (keywords [("filter_options", filter_options);
               ("pillar_key", pillar_key);
               ("pillarenv", pillarenv);
               ("saltenv", saltenv);
               ("merge_pillar", merge_pillar);
               ("revision_id", revision_id);
               ("revision_no", revision_no);
               ("revision_date", revision_date);
               ("revision_date_format", revision_date_format);
               ("source_service", source_service);
               ("destination_service", destination_service)]
     ∪ term_fields);
  call "net.load_config" []
    (keywords [("text", term_config);
               ("test", test);
               ("commit", commit);
               ("debug", debug);
               ("inherit_napalm_device", napalm_device)]).

Definition load_filter_config (filter_name : pyval)
    (kw : gmap string pyval) : M pyval :=
  _ ← lift (positional ["filter_name"] kw);
  let filter_options := kwarg kw "filter_options" PyNone in
  let terms := kwarg kw "terms" PyNone in
  let prepend := kwarg kw "prepend" (PyBool true) in
  let pillar_key := kwarg kw "pillar_key" (PyStr "acl") in
  let pillarenv := kwarg kw "pillarenv" PyNone in
  let saltenv := kwarg kw "saltenv" PyNone in
  let merge_pillar := kwarg kw "merge_pillar" (PyBool true) in
  let only_lower_merge := kwarg kw "only_lower_merge" (PyBool false) in
  let revision_id := kwarg kw "revision_id" PyNone in
  let revision_no := kwarg kw "revision_no" PyNone in
  let revision_date := kwarg kw "revision_date" (PyBool true) in
  let revision_date_format := kwarg kw "revision_date_format" (PyStr "%Y/%m/%d") in
  let test := kwarg kw "test" (PyBool false) in
  let commit := kwarg kw "commit" (PyBool true) in
  let debug := kwarg kw "debug" (PyBool false) in
  let filter_options :=
    if negb (truthy filter_options) then PyList [] else filter_options in
  let terms := if negb (truthy terms) then PyList [] else terms in
  platform ← lift (Resolver._get_capirca_platform __grains__);
  filter_config ← call "capirca.get_filter_config"
    [PyStr platform; filter_name]
    (keywords [("terms", terms);
               ("prepend", prepend);
               ("filter_options", filter_options);
               ("pillar_key", pillar_key);
               ("pillarenv", pillarenv);
               ("saltenv", saltenv);
               ("merge_pillar", merge_pillar);
               ("only_lower_merge", only_lower_merge);
               ("revision_id", revision_id);
               ("revision_no", revision_no);
               ("revision_date", revision_date);
               ("revision_date_format", revision_date_format)]);
  call "net.load_config" []
    (keywords [("text", filter_config);
               ("test", test);
               ("commit", commit);
               ("debug", debug);
               ("inherit_napalm_device", napalm_device)]).

Definition load_policy_config (kw : gmap string pyval) : M pyval :=
  let filters := kwarg kw "filters" PyNone in
  let prepend := kwarg kw "prepend" (PyBool true) in
  let pillar_key := kwarg kw "pillar_key" (PyStr "acl") in
  let pillarenv := kwarg kw "pillarenv" PyNone in
  let saltenv := kwarg kw "saltenv" PyNone in
  let merge_pillar := kwarg kw "merge_pillar" (PyBool true) in
  let only_lower_merge := kwarg kw "only_lower_merge" (PyBool false) in
  let revision_id := kwarg kw "revision_id" PyNone in
  let revision_no := kwarg kw "revision_no" PyNone in
  let revision_date := kwarg kw "revision_date" (PyBool true) in
  let revision_date_format := kwarg kw "revision_date_format" (PyStr "%Y/%m/%d") in
  let test := kwarg kw "test" (PyBool false) in
  let commit := kwarg kw "commit" (PyBool true) in
  let debug := kwarg kw "debug" (PyBool false) in
  let filters := if negb (truthy filters) then PyList [] else filters in
  platform ← lift (Resolver._get_capirca_platform __grains__);
  policy_config ← call "capirca.get_policy_config"
    [PyStr platform]
    (keywords [("filters", filters);
               ("prepend", prepend);
               ("pillar_key", pillar_key);
               ("pillarenv", pillarenv);
               ("saltenv", saltenv);
               ("merge_pillar", merge_pillar);
               ("only_lower_merge", only_lower_merge);
               ("revision_id", revision_id);
               ("revision_no", revision_no);
               ("revision_date", revision_date);
               ("revision_date_format", revision_date_format)]);
  call "net.load_config" []
    (keywords [("text", policy_config);
               ("test", test);
               ("commit", commit);
               ("debug", debug);
               ("inherit_napalm_device", napalm_device)]).

Definition get_filter_pillar (filter_name : pyval)
    (kw : gmap string pyval) : M pyval :=
  _ ← lift (no_var_keyword get_pillar_named kw);
  let pillar_key := kwarg kw "pillar_key" (PyStr "acl") in
  let pillarenv := kwarg kw "pillarenv" PyNone in
  let saltenv := kwarg kw "saltenv" PyNone in
  call "capirca.get_filter_pillar" [filter_name]
    (keywords [("pillar_key", pillar_key);
               ("pillarenv", pillarenv);
               ("saltenv", saltenv)]).

Definition get_term_pillar (filter_name term_name : pyval)
    (kw : gmap string pyval) : M pyval :=
  _ ← lift (no_var_keyword get_pillar_named kw);
  let pillar_key := kwarg kw "pillar_key" (PyStr "acl") in
  let pillarenv := kwarg kw "pillarenv" PyNone in
  let saltenv := kwarg kw "saltenv" PyNone in
  call "capirca.get_term_pillar" [filter_name; term_name]
    (keywords [("pillar_key", pillar_key);
               ("pillarenv", pillarenv);
               ("saltenv", saltenv)]).

(** The call sites, as values: the invocation that each generator builds for
    the compiler once the platform is resolved, and the one for
    [net.load_config]. The statements below compare the call log with them. *)
Definition normalised (v : pyval) : pyval :=
  if negb (truthy v) then PyList [] else v.

Definition term_call (platform : string) (filter_name term_name : pyval)
    (kw : gmap string pyval) : invocation :=
  Invocation "capirca.get_term_config"
    [PyStr platform; filter_name; term_name]
    (keywords [("filter_options", normalised (kwarg kw "filter_options" PyNone));
               ("pillar_key", kwarg kw "pillar_key" (PyStr "acl"));
               ("pillarenv", kwarg kw "pillarenv" PyNone);
               ("saltenv", kwarg kw "saltenv" PyNone);
               ("merge_pillar", kwarg kw "merge_pillar" (PyBool true));
               ("revision_id", kwarg kw "revision_id" PyNone);
               ("revision_no", kwarg kw "revision_no" PyNone);
               ("revision_date", kwarg kw "revision_date" (PyBool true));
               ("revision_date_format",
                kwarg kw "revision_date_format" (PyStr "%Y/%m/%d"));
               ("source_service", kwarg kw "source_service" PyNone);
               ("destination_service", kwarg kw "destination_service" PyNone)]
     ∪ extra_keywords load_term_config_named kw).

Definition filter_call (platform : string) (filter_name : pyval)
    (kw : gmap string pyval) : invocation :=
  Invocation "capirca.get_filter_config"
    [PyStr platform; filter_name]
    (keywords [("terms", normalised (kwarg kw "terms" PyNone));
               ("prepend", kwarg kw "prepend" (PyBool true));
               ("filter_options", normalised (kwarg kw "filter_options" PyNone));
               ("pillar_key", kwarg kw "pillar_key" (PyStr "acl"));
               ("pillarenv", kwarg kw "pillarenv" PyNone);
               ("saltenv", kwarg kw "saltenv" PyNone);
               ("merge_pillar", kwarg kw "merge_pillar" (PyBool true));
               ("only_lower_merge", kwarg kw "only_lower_merge" (PyBool false));
               ("revision_id", kwarg kw "revision_id" PyNone);
               ("revision_no", kwarg kw "revision_no" PyNone);
               ("revision_date", kwarg kw "revision_date" (PyBool true));
               ("revision_date_format",
                kwarg kw "revision_date_format" (PyStr "%Y/%m/%d"))]).

Definition policy_call (platform : string) (kw : gmap string pyval) : invocation :=
  Invocation "capirca.get_policy_config"
    [PyStr platform]
    (keywords [("filters", normalised (kwarg kw "filters" PyNone));
               ("prepend", kwarg kw "prepend" (PyBool true));
               ("pillar_key", kwarg kw "pillar_key" (PyStr "acl"));
               ("pillarenv", kwarg kw "pillarenv" PyNone);
               ("saltenv", kwarg kw "saltenv" PyNone);
               ("merge_pillar", kwarg kw "merge_pillar" (PyBool true));
               ("only_lower_merge", kwarg kw "only_lower_merge" (PyBool false));
               ("revision_id", kwarg kw "revision_id" PyNone);
               ("revision_no", kwarg kw "revision_no" PyNone);
               ("revision_date", kwarg kw "revision_date" (PyBool true));
               ("revision_date_format",
                kwarg kw "revision_date_format" (PyStr "%Y/%m/%d"))]).

Definition apply_call (text test commit debug : pyval) : invocation :=
  Invocation "net.load_config" []
    (keywords [("text", text);
               ("test", test);
               ("commit", commit);
               ("debug", debug);
               ("inherit_napalm_device", napalm_device)]).

Definition invoke (inv : invocation) : M pyval :=
  call (fn inv) (args inv) (kwargs inv).

(** Compile, then apply: the shape the three generators share. *)
Definition compile_then_apply (c : invocation) (kw : gmap string pyval) : M pyval :=
  text ← invoke c;
  invoke (apply_call text (kwarg kw "test" (PyBool false))
            (kwarg kw "commit" (PyBool true)) (kwarg kw "debug" (PyBool false))).

(** The invocations a run added to the log. *)
Definition new_calls (before after : state) : list invocation :=
  drop (length (calls before)) (calls after).

End Functions.

Arguments State {World} world calls.
Arguments world {World} s.
Arguments calls {World} s.

(** ** The decorator

    Modelled from the spec: [proxy_napalm_wrap] of [salt/utils/napalm.py],
    which is not under src/. The three generators are defined under it
    (lines 122, 461, 675) and hand the [napalm_device] that it binds to
    [net.load_config] (lines 458, 672, 862). "Each call opens (or reuses, via
    the host's connection-management convention) one device session"
    (section 5), and the device handle is inherited "from an implicit
    caller-scoped variable" (section 9): the keyword [inherit_napalm_device].
    On a proxy minion that keeps its session alive the cached device is
    reused. Elsewhere a truthy [inherit_napalm_device] of the caller is the
    device, and without one a device is opened for the call; when that
    connection fails the wrapper returns the message of the failure and the
    function is not called. The function is called on the caller's keywords
    as they are. *)

Inductive minion : Type :=
| AlwaysAlive (cached : pyval)
| OnDemand (opened : pyval + string).

Definition bound_device (m : minion) (kw : gmap string pyval) : pyval + string :=
  match m with
  | AlwaysAlive cached => inl cached
  | OnDemand opened =>
      if truthy (kwarg kw "inherit_napalm_device" PyNone)
      then inl (kwarg kw "inherit_napalm_device" PyNone)
      else opened
  end.

(** Two invocations that differ at most in the device handle. *)
Definition same_up_to_device (a a' : invocation) : Prop :=
  fn a = fn a' ∧ args a = args a'
  ∧ ∀ k, k ≠ "inherit_napalm_device" → kwargs a !! k = kwargs a' !! k.

Section Decorator.

Context {World : Type}.
Variable __salt__ : invocation → World → result pyval * World.
Variable __grains__ : gmap string pyval.

Definition proxy_napalm_wrap (m : minion)
    (func : pyval → gmap string pyval → M (World:=World) pyval)
    (kw : gmap string pyval) : M (World:=World) pyval :=
  match bound_device m kw with
  | inl napalm_device => func napalm_device kw
  | inr message => mret (PyStr message)
  end.

(** The operations as the module exports them: the functions above, under
    the decorator. *)
Definition netacl_load_term_config (m : minion) (filter_name term_name : pyval)
    (kw : gmap string pyval) : M pyval :=
  proxy_napalm_wrap m
    (λ napalm_device kw,
       load_term_config __salt__ __grains__ napalm_device filter_name term_name kw)
    kw.

Definition netacl_load_filter_config (m : minion) (filter_name : pyval)
    (kw : gmap string pyval) : M pyval :=
  proxy_napalm_wrap m
    (λ napalm_device kw,
       load_filter_config __salt__ __grains__ napalm_device filter_name kw)
    kw.

Definition netacl_load_policy_config (m : minion) (kw : gmap string pyval)
  : M pyval :=
  proxy_napalm_wrap m
    (λ napalm_device kw, load_policy_config __salt__ __grains__ napalm_device kw)
    kw.

End Decorator.

End Netacl.

(** ** The collaborators

    Modelled from the spec: [capirca.get_*_config], [capirca.get_*_pillar]
    and [net.load_config] are defined in other modules of the repository
    ([salt/modules/capirca_acl.py], [salt/modules/napalm_network.py]), which
    are not under src/; [napalm_acl.py] only calls them. The definitions of
    this module follow the specification (sections 4.2 to 4.4) and the
    docstrings of [napalm_acl.py]. The pillar environments ([pillarenv],
    [saltenv]) and the revision comment are left out. What the Capirca
    library does is kept abstract: the platforms it supports ([supported]),
    the text of a term, which it refuses for malformed fields
    ([render_term]), and the text of a filter header ([render_header]). *)

Module SpecModel.

(** Terms and filters are lists of single-key dicts [{name: payload}]. *)
Definition entry : Type := string * pyval.

Definition entry_of (v : pyval) : option entry :=
  match v with
  | PyDict [(PyStr name, payload)] => Some (name, payload)
  | _ => None
  end.

Definition entries (v : pyval) : list entry :=
  match v with
  | PyList l => omap entry_of l
  | _ => []
  end.

Definition lookup_entry (name : string) (es : list entry) : option pyval :=
  snd <$> List.find (λ e, String.eqb name e.1) es.

Definition has_entry (name : string) (es : list entry) : bool :=
  existsb (λ e, String.eqb name e.1) es.

Definition dict_get (k : string) (v : pyval) : pyval :=
  match v with
  | PyDict d =>
      default PyNone
        (snd <$> List.find (λ kv, match kv.1 with
                                  | PyStr k' => String.eqb k k'
                                  | _ => false
                                  end) d)
  | _ => PyNone
  end.

(** Modelled from the spec: the merge of [capirca_acl.py], which is not
    under src/. "Caller-supplied values win on conflicting keys"; the
    entries of the caller that the pillar does not have are "new entries",
    listed "before or after existing ones" as [prepend] says; existing ones
    "preserve the position" (docstring of [load_filter_config]). *)
Definition merge_entries (prepend : bool) (caller pillar : list entry) : list entry :=
  let new := List.filter (λ e : entry, negb (has_entry e.1 pillar)) caller in
  let existing :=
    map (λ e : entry, (e.1, default e.2 (lookup_entry e.1 caller)) : entry) pillar in
  if prepend then (new ++ existing)%list else (existing ++ new)%list.

(** No entry of the caller has the name of an entry of the pillar. *)
Definition all_new (caller pillar : list entry) : bool :=
  forallb (λ e : entry, negb (has_entry e.1 pillar)) caller.

Definition encode_entries (es : list entry) : pyval :=
  PyList (map (λ e : entry, PyDict [(PyStr e.1, e.2)]) es).

Definition fields_of_dict (v : pyval) : gmap string pyval :=
  match v with
  | PyDict d =>
      list_to_map (omap (λ kv, match kv.1 with
                               | PyStr k => Some (k, kv.2)
                               | _ => None
                               end) d)
  | _ => ∅
  end.

Definition dict_of_fields (m : gmap string pyval) : pyval :=
  PyDict ((λ kv, (PyStr kv.1, kv.2)) <$> map_to_list m).

(** Modelled from the spec: the merge of one field of [capirca_acl.py]
    (section 4.3), which is not under src/. "List-valued fields are
    concatenated with position controlled by prepend"; otherwise
    "caller-supplied values win on conflicting keys", a value that the
    caller did not supply (None) leaving the pillar's. *)
Definition merge_value (prepend : bool) (caller pillar : pyval) : pyval :=
  match caller, pillar with
  | PyList a, PyList b => PyList (if prepend then a ++ b else b ++ a)%list
  | PyNone, _ => pillar
  | _, _ => caller
  end.

Definition merge_fields (prepend : bool) (caller pillar : pyval) : pyval :=
  dict_of_fields
    (union_with (λ c p, Some (merge_value prepend c p))
       (fields_of_dict caller) (fields_of_dict pillar)).

(** The lowest level of the merge: the fields of each term of the caller
    are merged with the fields of the pillar's term of that name. *)
Definition lower_terms (prepend : bool) (caller pillar : list entry) : list entry :=
  map (λ t : entry,
         (t.1, match lookup_entry t.1 pillar with
               | Some fields => merge_fields prepend t.2 fields
               | None => t.2
               end) : entry) caller.

(** Modelled from the spec: the merge of a filter with the pillar's
    (section 4.3). "If only_lower_merge is true, only the lowest granularity
    level's fields participate in the pillar merge (e.g., for filter
    generation, only each term's fields merge with pillar, not the filter's
    own options)": the list of terms and the options are then the caller's.
    Otherwise the lists of terms are merged as well, and so are the
    options. *)
Definition merged_terms (prepend only_lower : bool) (caller pillar : list entry)
  : list entry :=
  let lowered := lower_terms prepend caller pillar in
  if only_lower then lowered else merge_entries prepend lowered pillar.

Definition merged_options (prepend only_lower : bool) (caller pillar : pyval)
  : pyval :=
  if only_lower then caller else merge_value prepend caller pillar.

Definition merge_filter (prepend only_lower : bool) (caller pillar : pyval) : pyval :=
  PyDict [(PyStr "options",
           merged_options prepend only_lower
             (dict_get "options" caller) (dict_get "options" pillar));
          (PyStr "terms",
           encode_entries
             (merged_terms prepend only_lower
                (entries (dict_get "terms" caller))
                (entries (dict_get "terms" pillar))))].

(** Modelled from the spec: the merge of a policy with the pillar's
    (section 4.3): each filter of the caller is merged with the pillar's
    filter of that name, and, unless [only_lower_merge], the lists of
    filters are merged as well. *)
Definition merged_filters (prepend only_lower : bool) (caller pillar : list entry)
  : list entry :=
  let lowered :=
    map (λ f : entry,
           (f.1, match lookup_entry f.1 pillar with
                 | Some pf => merge_filter prepend only_lower f.2 pf
                 | None => f.2
                 end) : entry) caller in
  if only_lower then lowered else merge_entries prepend lowered pillar.

(** The errors of the compiler (section 4.3, failure conditions). *)
Definition UnsupportedPlatform : exn := Raised (PyStr "unsupported platform").
Definition NothingToCompile : exn := Raised (PyStr "nothing to compile").

(** The pillar store (by root key), the number of times it was read, and
    the configuration the device runs. *)
Record site : Type := Site {
  pillar : gmap string pyval;
  pillar_reads : nat;
  device : string
}.

Definition with_pillar (p : gmap string pyval) (w : site) : site :=
  Site p (pillar_reads w) (device w).

Section Collaborators.

Variable supported : string → bool.
Variable render_term : string → string → pyval → result string.
Variable render_header : string → string → pyval → string.

(** Modelled from the spec: the pillar accessors of [capirca_acl.py]
    (section 4.2), which are not under src/. A read returns the
    substructure, "or an empty/absent result if not found", and leaves the
    store as it is; the read is counted. *)
Definition read_policy (pillar_key : pyval) (w : site) : list entry * site :=
  (match pillar_key with
   | PyStr k => entries (default (PyList []) (pillar w !! k))
   | _ => []
   end,
   Site (pillar w) (S (pillar_reads w)) (device w)).

Definition filter_pillar (filter_name pillar_key : pyval) (w : site)
  : pyval * site :=
  let '(policy, w') := read_policy pillar_key w in
  (match filter_name with
   | PyStr n => default (PyDict []) (lookup_entry n policy)
   | _ => PyDict []
   end, w').

Definition term_pillar (filter_name term_name pillar_key : pyval) (w : site)
  : pyval * site :=
  let '(f, w') := filter_pillar filter_name pillar_key w in
  (match term_name with
   | PyStr n => default (PyDict []) (lookup_entry n (entries (dict_get "terms" f)))
   | _ => PyDict []
   end, w').

Definition get_filter_pillar (a : list pyval) (k : gmap string pyval) (w : site)
  : result pyval * site :=
  match a with
  | [filter_name] =>
      let '(v, w') := filter_pillar filter_name (kwarg k "pillar_key" (PyStr "acl")) w in
      (Ok v, w')
  | _ => (Raise TypeError, w)
  end.

Definition get_term_pillar (a : list pyval) (k : gmap string pyval) (w : site)
  : result pyval * site :=
  match a with
  | [filter_name; term_name] =>
      let '(v, w') :=
        term_pillar filter_name term_name (kwarg k "pillar_key" (PyStr "acl")) w in
      (Ok v, w')
  | _ => (Raise TypeError, w)
  end.

(** Modelled from the spec: the text generation of [capirca_acl.py]
    (section 4.3), which is not under src/. The header of a filter is
    followed by its terms, one after the other in the order of the list; the
    text of a policy is the text of its filters, in the order of the list.
    "Malformed field values" are an error of the compiler: a term that
    Capirca refuses makes the whole generation fail. *)
Fixpoint render_terms (platform : string) (terms : list entry)
  : result (list string) :=
  match terms with
  | [] => Ok []
  | t :: rest =>
      block ← render_term platform t.1 t.2;
      blocks ← render_terms platform rest;
      Ok (block :: blocks)
  end.

Definition filter_text (platform name : string) (options : pyval)
    (terms : list entry) : result string :=
  blocks ← render_terms platform terms;
  Ok (render_header platform name options ++ String.concat "" blocks)%string.

Fixpoint filter_texts (platform : string) (filters : list entry)
  : result (list string) :=
  match filters with
  | [] => Ok []
  | f :: rest =>
      text ← filter_text platform f.1 (dict_get "options" f.2)
               (entries (dict_get "terms" f.2));
      texts ← filter_texts platform rest;
      Ok (text :: texts)
  end.

Definition policy_text (platform : string) (filters : list entry) : result string :=
  texts ← filter_texts platform filters;
  Ok (String.concat "" texts).

(** "Unknown PlatformId unsupported by the compiler" is an error. *)
Definition compiled (platform : string) (text : result string) : result pyval :=
  if supported platform then
    match text with
    | Ok t => Ok (PyStr t)
    | Raise e => Raise e
    end
  else Raise UnsupportedPlatform.

(** Modelled from the spec: [capirca.get_term_config] (section 4.3). "If
    merge_pillar is true, fetch the corresponding pillar substructure and
    merge it with the caller-supplied overrides"; otherwise "the pillar is
    not consulted". *)
Definition get_term_config (a : list pyval) (k : gmap string pyval) (w : site)
  : result pyval * site :=
  match a with
  | [PyStr platform; PyStr filter_name; PyStr term_name] =>
      let options := kwarg k "filter_options" PyNone in
      let fields :=
        extra_keywords
          ["filter_options"; "pillar_key"; "pillarenv"; "saltenv"; "merge_pillar";
           "revision_id"; "revision_no"; "revision_date"; "revision_date_format";
           "source_service"; "destination_service"] k in
      if truthy (kwarg k "merge_pillar" (PyBool true)) then
        let '(t, w') :=
          term_pillar (PyStr filter_name) (PyStr term_name)
            (kwarg k "pillar_key" (PyStr "acl")) w in
        let merged := fields ∪ fields_of_dict t in
        (compiled platform
           (filter_text platform filter_name options
              [(term_name, dict_of_fields merged)]), w')
      else
        (compiled platform
           (filter_text platform filter_name options
              [(term_name, dict_of_fields fields)]), w)
  | _ => (Raise TypeError, w)
  end.

(** Modelled from the spec: [capirca.get_filter_config] (section 4.3).
    With [merge_pillar] the filter is fetched from the pillar and merged
    with the caller's terms and options, as [only_lower_merge] and [prepend]
    say. Without it the pillar is not consulted, and the "absence of both
    terms/filters input and pillar data" is an error. *)
Definition get_filter_config (a : list pyval) (k : gmap string pyval) (w : site)
  : result pyval * site :=
  match a with
  | [PyStr platform; PyStr filter_name] =>
      let options := kwarg k "filter_options" PyNone in
      let caller := entries (kwarg k "terms" PyNone) in
      let prepend := truthy (kwarg k "prepend" (PyBool true)) in
      let only_lower := truthy (kwarg k "only_lower_merge" (PyBool false)) in
      if truthy (kwarg k "merge_pillar" (PyBool true)) then
        let '(f, w') :=
          filter_pillar (PyStr filter_name) (kwarg k "pillar_key" (PyStr "acl")) w in
        (compiled platform
           (filter_text platform filter_name
              (merged_options prepend only_lower options (dict_get "options" f))
              (merged_terms prepend only_lower caller
                 (entries (dict_get "terms" f)))), w')
      else
        match caller with
        | [] => (Raise NothingToCompile, w)
        | _ => (compiled platform
                  (filter_text platform filter_name options caller), w)
        end
  | _ => (Raise TypeError, w)
  end.

(** Modelled from the spec: [capirca.get_policy_config] (section 4.3), in
    the same way, on the list of filters. *)
Definition get_policy_config (a : list pyval) (k : gmap string pyval) (w : site)
  : result pyval * site :=
  match a with
  | [PyStr platform] =>
      let caller := entries (kwarg k "filters" PyNone) in
      let prepend := truthy (kwarg k "prepend" (PyBool true)) in
      let only_lower := truthy (kwarg k "only_lower_merge" (PyBool false)) in
      if truthy (kwarg k "merge_pillar" (PyBool true)) then
        let '(policy, w') := read_policy (kwarg k "pillar_key" (PyStr "acl")) w in
        (compiled platform
           (policy_text platform
              (merged_filters prepend only_lower caller policy)), w')
      else
        match caller with
        | [] => (Raise NothingToCompile, w)
        | _ => (compiled platform (policy_text platform caller), w)
        end
  | _ => (Raise TypeError, w)
  end.

(** Modelled from the spec: [net.load_config] of [napalm_network.py]
    (section 4.4), which is not under src/. With [test] the change is
    discarded; with [debug] the text is returned under [loaded_config]. *)
Definition load_config (a : list pyval) (k : gmap string pyval) (w : site)
  : result pyval * site :=
  match a, k !! "text" with
  | [], Some (PyStr text) =>
      let test := truthy (kwarg k "test" (PyBool false)) in
      let commit := truthy (kwarg k "commit" (PyBool true)) in
      let debug := truthy (kwarg k "debug" (PyBool false)) in
      let same := String.eqb text (device w) in
      (Ok (PyDict ([(PyStr "result", PyBool true);
                    (PyStr "comment", PyStr "");
                    (PyStr "already_configured", PyBool same);
                    (PyStr "diff", PyStr (if same then "" else text))]
                   ++ (if debug then [(PyStr "loaded_config", PyStr text)] else []))),
       if test then w
       else if commit then Site (pillar w) (pillar_reads w) text
       else w)
  | _, _ => (Raise TypeError, w)
  end.

(** The [__salt__] table: a name that is not loaded is a [KeyError]. *)
Definition __salt__ (inv : invocation) (w : site) : result pyval * site :=
  let f := fn inv in
  if String.eqb f "capirca.get_term_config" then
    get_term_config (args inv) (kwargs inv) w
  else if String.eqb f "capirca.get_filter_config" then
    get_filter_config (args inv) (kwargs inv) w
  else if String.eqb f "capirca.get_policy_config" then
    get_policy_config (args inv) (kwargs inv) w
  else if String.eqb f "capirca.get_filter_pillar" then
    get_filter_pillar (args inv) (kwargs inv) w
  else if String.eqb f "capirca.get_term_pillar" then
    get_term_pillar (args inv) (kwargs inv) w
  else if String.eqb f "net.load_config" then
    load_config (args inv) (kwargs inv) w
  else (Raise (KeyError f), w).

End Collaborators.

Definition is_compiler (f : string) : Prop :=
  f = "capirca.get_term_config" ∨ f = "capirca.get_filter_config"
  ∨ f = "capirca.get_policy_config".

(** A concrete instance to run the module on. *)
Definition demo_supported (platform : string) : bool :=
  bool_decide (platform ∈ ["iptables"; "juniper"; "junipersrx"; "cisco";
                           "ciscoxr"; "ciscoasa"; "paloaltofw"; "arista"]).

Definition demo_render_term (platform name : string) (fields : pyval)
  : result string :=
  Ok ("term " ++ name ++ ";")%string.

Definition demo_render_header (platform name : string) (options : pyval) : string :=
  (platform ++ " filter " ++ name ++ ":")%string.

Definition demo_salt : invocation → site → result pyval * site :=
  __salt__ demo_supported demo_render_term demo_render_header.

Definition term (name : string) : pyval :=
  PyDict [(PyStr name, PyDict [(PyStr "action", PyStr "accept")])].

Definition demo_filter (name : string) (terms : list pyval) : pyval :=
  PyDict [(PyStr name, PyDict [(PyStr "terms", PyList terms)])].

Definition demo_pillar : gmap string pyval :=
  {[ "acl" := PyList [demo_filter "f1" [term "A"; term "B"]] ]}.

Definition demo_world : site := Site demo_pillar 0 "".

Definition demo_grains : gmap string pyval :=
  Resolver.facts "Debian" "Linux" "VM".

End SpecModel.

(** * Properties *)

(** ** Strings *)

Lemma startswith_spec (p s : string) :
  startswith p s = true ↔ ∃ post, s = (p ++ post)%string.
Proof.
  revert s; induction p as [|a p IH]; intros s; simpl.
  - split; [intros _; by exists s | done].
  - destruct s as [|b s].
    + split; [done | intros [post H]; discriminate].
    + rewrite andb_true_iff, Ascii.eqb_eq, IH. split.
      * intros [-> [post ->]]. by exists post.
      * intros [post H]. injection H as -> ->. split; [done | by exists post].
Qed.

(** [contains sub s] is Python's [sub in s]: [sub] is a substring of [s]. *)
Lemma contains_spec (sub s : string) :
  contains sub s = true ↔ ∃ pre post, s = (pre ++ sub ++ post)%string.
Proof.
  induction s as [|c s IH].
  - simpl. rewrite orb_false_r, startswith_spec. split.
    + intros [post H]. by exists EmptyString, post.
    + intros [pre [post H]]. destruct pre; simpl in H; [by exists post | discriminate].
  - cbn [contains]. rewrite orb_true_iff, startswith_spec, IH. split.
    + intros [[post H] | [pre [post H]]].
      * by exists EmptyString, post.
      * exists (String c pre), post. simpl. by rewrite H.
    + intros [pre [post H]]. destruct pre as [|c' pre]; simpl in H.
      * left. by exists post.
      * right. injection H as _ H. by exists pre, post.
Qed.

Lemma ascii_lower_idemp (c : ascii) : ascii_lower (ascii_lower c) = ascii_lower c.
Proof.
  destruct c as [[] [] [] [] [] [] [] []]; reflexivity.
Qed.

Lemma lower_idemp (s : string) : lower (lower s) = lower s.
Proof.
  induction s as [|c s IH]; simpl; [done|].
  by rewrite ascii_lower_idemp, IH.
Qed.

(** ** The platform resolver *)

Module ResolverProps.
Import Resolver.

Lemma resolver_populated (g : gmap string pyval) (v o m : string) :
  populated g v o m →
  _get_capirca_platform g =
    Ok (default (lower v) (first_match rule_table (lower v) (lower o) (lower m))).
Proof.
  intros (Hv & Ho & Hm).
  unfold _get_capirca_platform, getitem.
  rewrite Hv, Ho, Hm. cbn [mbind result_bind str_lower first_match rule_table].
  repeat match goal with
         | |- context [if ?b then _ else _] => destruct b; [reflexivity|]
         end.
  reflexivity.
Qed.

Lemma populated_facts (v o m : string) : populated (facts v o m) v o m.
Proof. unfold populated, facts. by simplify_map_eq. Qed.

(** C1. With fully populated device facts the resolver is the first-match
    evaluation of the rule table on the lowercased vendor, os and model, the
    lowercased vendor being the fallback. Row by row: vendor juniper with
    [srx] in the model gives [junipersrx]; vendor cisco gives [cisco],
    [ciscoxr], [ciscoasa] for os ios, iosxr, asa, whatever the model; os
    linux gives [iptables] and vendor palo alto networks gives [paloaltofw]
    when no earlier row matches; when no row matches the result is the
    lowercased vendor. *)
Theorem platform_rule_table (g : gmap string pyval) (v o m : string) :
  populated g v o m →
  let V := lower v in
  let O := lower o in
  let Mo := lower m in
  _get_capirca_platform g = Ok (default V (first_match rule_table V O Mo))
  ∧ (V = "juniper" → contains "srx" Mo = true →
     _get_capirca_platform g = Ok "junipersrx")
  ∧ (V = "cisco" → O = "ios" → _get_capirca_platform g = Ok "cisco")
  ∧ (V = "cisco" → O = "iosxr" → _get_capirca_platform g = Ok "ciscoxr")
  ∧ (V = "cisco" → O = "asa" → _get_capirca_platform g = Ok "ciscoasa")
  ∧ (O = "linux" → ¬ (V = "juniper" ∧ contains "srx" Mo = true) →
     _get_capirca_platform g = Ok "iptables")
  ∧ (V = "palo alto networks" → O ≠ "linux" →
     _get_capirca_platform g = Ok "paloaltofw")
  ∧ (first_match rule_table V O Mo = None → _get_capirca_platform g = Ok V).
Proof.
  intros Hp V O Mo.
  rewrite (resolver_populated g v o m Hp). fold V O Mo.
  split; [reflexivity|].
  repeat split.
  - intros -> Hsrx. simpl. by rewrite Hsrx.
  - by intros -> ->.
  - by intros -> ->.
  - by intros -> ->.
  - intros -> Hnot. simpl.
    destruct (String.eqb V "juniper") eqn:EV; simpl.
    + apply String.eqb_eq in EV.
      destruct (contains "srx" Mo) eqn:EM; [by destruct Hnot|].
      rewrite EV. reflexivity.
    + destruct (String.eqb V "cisco"); reflexivity.
  - intros -> HO. simpl.
    destruct (String.eqb O "linux") eqn:EO; [by apply String.eqb_eq in EO|].
    reflexivity.
  - by intros ->.
Qed.

Lemma platform_rule_table_witness :
  _get_capirca_platform (facts "Juniper" "JunOS" "SRX340") = Ok "junipersrx"
  ∧ _get_capirca_platform (facts "Cisco" "IOS" "C2960") = Ok "cisco"
  ∧ _get_capirca_platform (facts "cisco" "iosxr" "ASR9K") = Ok "ciscoxr"
  ∧ _get_capirca_platform (facts "cisco" "asa" "5505") = Ok "ciscoasa"
  ∧ _get_capirca_platform (facts "Debian" "Linux" "VM") = Ok "iptables"
  ∧ _get_capirca_platform (facts "Palo Alto Networks" "PanOS" "PA-220") = Ok "paloaltofw"
  ∧ _get_capirca_platform (facts "Arista" "eos" "7050") = Ok "arista".
Proof.
  split_and!.
  - destruct (platform_rule_table _ "Juniper" "JunOS" "SRX340" (populated_facts _ _ _))
      as (_ & H & _).
    apply H; reflexivity.
  - destruct (platform_rule_table _ "Cisco" "IOS" "C2960" (populated_facts _ _ _))
      as (_ & _ & H & _).
    apply H; reflexivity.
  - destruct (platform_rule_table _ "cisco" "iosxr" "ASR9K" (populated_facts _ _ _))
      as (_ & _ & _ & H & _).
    apply H; reflexivity.
  - destruct (platform_rule_table _ "cisco" "asa" "5505" (populated_facts _ _ _))
      as (_ & _ & _ & _ & H & _).
    apply H; reflexivity.
  - destruct (platform_rule_table _ "Debian" "Linux" "VM" (populated_facts _ _ _))
      as (_ & _ & _ & _ & _ & H & _).
    apply H; [reflexivity | intros [E _]; discriminate E].
  - destruct (platform_rule_table _ "Palo Alto Networks" "PanOS" "PA-220"
                (populated_facts _ _ _)) as (_ & _ & _ & _ & _ & _ & H & _).
    apply H; [reflexivity | intros E; discriminate E].
  - destruct (platform_rule_table _ "Arista" "eos" "7050" (populated_facts _ _ _))
      as (_ & _ & _ & _ & _ & _ & _ & H).
    apply H; reflexivity.
Defined.

(** C2, as stated, fails: the juniper row stands before the linux row, so a
    juniper device whose model contains [srx] resolves to [junipersrx] even
    when its os is linux. *)
Lemma linux_always_iptables_fails :
  ¬ (∀ (g : gmap string pyval) (v o m : string),
       populated g v o m → lower o = "linux" →
       _get_capirca_platform g = Ok "iptables").
Proof.
  intros H.
  specialize (H (facts "Juniper" "linux" "SRX300") "Juniper" "linux" "SRX300"
                (populated_facts _ _ _) eq_refl).
  vm_compute in H. discriminate H.
Qed.

(** C2, amended. With os linux the resolver returns [iptables] for every
    vendor and model, except for vendor juniper with [srx] in the model,
    where the earlier row gives [junipersrx]. *)
Theorem linux_iptables_unless_srx (g : gmap string pyval) (v o m : string) :
  populated g v o m →
  lower o = "linux" →
  _get_capirca_platform g =
    Ok (if String.eqb (lower v) "juniper" && contains "srx" (lower m)
        then "junipersrx" else "iptables").
Proof.
  intros Hp HO.
  rewrite (resolver_populated g v o m Hp), HO. simpl.
  destruct (String.eqb (lower v) "juniper" && contains "srx" (lower m));
    [reflexivity|].
  destruct (String.eqb (lower v) "cisco"); reflexivity.
Qed.

Lemma linux_iptables_unless_srx_witness :
  _get_capirca_platform (facts "Cisco" "Linux" "Nexus") = Ok "iptables".
Proof.
  exact (linux_iptables_unless_srx _ "Cisco" "Linux" "Nexus"
           (populated_facts _ _ _) eq_refl).
Defined.

End ResolverProps.

(** ** The generators and the pillar helpers *)

Module NetaclProps.
Import Netacl.

Section Generic.

Context {World : Type}.
Variable __salt__ : invocation → World → result pyval * World.
Variable __grains__ : gmap string pyval.
Variable napalm_device : pyval.

#[local] Abbreviation state := (@state World).
#[local] Abbreviation load_term_config :=
  (load_term_config __salt__ __grains__ napalm_device).
#[local] Abbreviation load_filter_config :=
  (load_filter_config __salt__ __grains__ napalm_device).
#[local] Abbreviation load_policy_config :=
  (load_policy_config __salt__ __grains__ napalm_device).
#[local] Abbreviation get_filter_pillar := (get_filter_pillar __salt__).
#[local] Abbreviation get_term_pillar := (get_term_pillar __salt__).
#[local] Abbreviation apply_call := (apply_call napalm_device).
#[local] Abbreviation compile_then_apply :=
  (compile_then_apply __salt__ napalm_device).

Lemma load_term_config_eq (filter_name term_name : pyval)
    (kw : gmap string pyval) (s : state) :
  load_term_config filter_name term_name kw s =
    match positional ["filter_name"; "term_name"] kw with
    | Raise e => (Raise e, s)
    | Ok _ =>
        match Resolver._get_capirca_platform __grains__ with
        | Raise e => (Raise e, s)
        | Ok p => compile_then_apply (term_call p filter_name term_name kw) kw s
        end
    end.
Proof.
  unfold Netacl.load_term_config, Netacl.compile_then_apply, mbind, M_bind, lift.
  destruct (positional _ kw); [|reflexivity].
  destruct (Resolver._get_capirca_platform __grains__); reflexivity.
Qed.

Lemma load_filter_config_eq (filter_name : pyval)
    (kw : gmap string pyval) (s : state) :
  load_filter_config filter_name kw s =
    match positional ["filter_name"] kw with
    | Raise e => (Raise e, s)
    | Ok _ =>
        match Resolver._get_capirca_platform __grains__ with
        | Raise e => (Raise e, s)
        | Ok p => compile_then_apply (filter_call p filter_name kw) kw s
        end
    end.
Proof.
  unfold Netacl.load_filter_config, Netacl.compile_then_apply, mbind, M_bind, lift.
  destruct (positional _ kw); [|reflexivity].
  destruct (Resolver._get_capirca_platform __grains__); reflexivity.
Qed.

Lemma load_policy_config_eq (kw : gmap string pyval) (s : state) :
  load_policy_config kw s =
    match Resolver._get_capirca_platform __grains__ with
    | Raise e => (Raise e, s)
    | Ok p => compile_then_apply (policy_call p kw) kw s
    end.
Proof.
  unfold Netacl.load_policy_config, Netacl.compile_then_apply, mbind, M_bind, lift.
  destruct (Resolver._get_capirca_platform __grains__); reflexivity.
Qed.

Lemma new_calls_app (s : state) (w : World) (l : list invocation) :
  new_calls s (State w (calls s ++ l)) = l.
Proof. unfold new_calls. simpl. by rewrite drop_app_length. Qed.

Lemma new_calls_refl (s : state) : new_calls s s = [].
Proof. unfold new_calls. by rewrite drop_all. Qed.

(** What a run of compile-then-apply is, by the outcome of the compiler. *)
Lemma compile_then_apply_run (c : invocation) (kw : gmap string pyval) (s : state) :
  compile_then_apply c kw s =
    match __salt__ c (world s) with
    | (Raise e, w1) => (Raise e, State w1 (calls s ++ [c]))
    | (Ok text, w1) =>
        let a := apply_call text (kwarg kw "test" (PyBool false))
                   (kwarg kw "commit" (PyBool true))
                   (kwarg kw "debug" (PyBool false)) in
        let '(r, w2) := __salt__ a w1 in
        (r, State w2 (calls s ++ [c; a]))
    end.
Proof.
  unfold Netacl.compile_then_apply, mbind, M_bind, invoke, call.
  destruct c as [f a k]; simpl.
  destruct (__salt__ _ (world s)) as [[text|e] w1]; [|reflexivity].
  simpl. destruct (__salt__ _ w1) as [r w2].
  by rewrite <- app_assoc.
Qed.

Lemma head_new_calls_unchanged (s : state) (c : invocation) :
  head (new_calls s s) = Some c → False.
Proof. by rewrite new_calls_refl. Qed.

(** Seen from the log: when the first call of a run of compile-then-apply
    returned [text], the run made exactly two calls, the second one being
    [net.load_config] on [text] with the caller's flags, and the outcome of
    the run is the outcome of that second call. *)
Lemma compile_then_apply_log (c0 : invocation) (kw : gmap string pyval)
    (s s' : state) (r : result pyval) (c : invocation) (text : pyval) (w1 : World) :
  compile_then_apply c0 kw s = (r, s') →
  head (new_calls s s') = Some c →
  __salt__ c (world s) = (Ok text, w1) →
  let a := apply_call text (kwarg kw "test" (PyBool false))
             (kwarg kw "commit" (PyBool true)) (kwarg kw "debug" (PyBool false)) in
  c = c0 ∧ new_calls s s' = [c0; a] ∧ __salt__ a w1 = (r, world s').
Proof.
  rewrite compile_then_apply_run. intros Hrun Hhead Hc a.
  destruct (__salt__ c0 (world s)) as [[text0|e] w0] eqn:E0.
  - cbv zeta in Hrun.
    destruct (__salt__ _ w0) as [r2 w2] eqn:E2.
    injection Hrun as <- <-. rewrite new_calls_app in Hhead |- *.
    injection Hhead as <-. rewrite E0 in Hc. injection Hc as -> ->.
    subst a. simpl. by rewrite E2.
  - injection Hrun as <- <-. rewrite new_calls_app in Hhead.
    injection Hhead as <-. rewrite E0 in Hc. discriminate Hc.
Qed.


(** C3. With the three keys present as strings the resolver returns a
    string; its result is a function of those three entries alone; when one
    of the keys is missing it raises (the [KeyError] of the first missing
    key when the keys before it hold strings), and the three generators let
    that exception through: they end with it, on the state they started
    from, without having called a collaborator. *)
Theorem resolver_total_or_fatal (g : gmap string pyval) :
  (∀ v o m, Resolver.populated g v o m →
     ∃ p, Resolver._get_capirca_platform g = Ok p)
  ∧ (∀ g' : gmap string pyval,
       g' !! "vendor" = g !! "vendor" → g' !! "os" = g !! "os" →
       g' !! "model" = g !! "model" →
       Resolver._get_capirca_platform g' = Resolver._get_capirca_platform g)
  ∧ (g !! "vendor" = None ∨ g !! "os" = None ∨ g !! "model" = None →
     ∃ e, Resolver._get_capirca_platform g = Raise e)
  ∧ (g !! "vendor" = None →
     Resolver._get_capirca_platform g = Raise (KeyError "vendor"))
  ∧ (∀ v, g !! "vendor" = Some (PyStr v) → g !! "os" = None →
     Resolver._get_capirca_platform g = Raise (KeyError "os"))
  ∧ (∀ v o, g !! "vendor" = Some (PyStr v) → g !! "os" = Some (PyStr o) →
     g !! "model" = None →
     Resolver._get_capirca_platform g = Raise (KeyError "model"))
  ∧ (∀ e kw (s : state),
       Resolver._get_capirca_platform __grains__ = Raise e →
       (∀ filter_name term_name,
          positional ["filter_name"; "term_name"] kw = Ok tt →
          load_term_config filter_name term_name kw s = (Raise e, s))
       ∧ (∀ filter_name,
          positional ["filter_name"] kw = Ok tt →
          load_filter_config filter_name kw s = (Raise e, s))
       ∧ load_policy_config kw s = (Raise e, s)).
Proof.
  split_and!.
  - intros v o m Hp. eexists. by apply ResolverProps.resolver_populated.
  - intros g' Hv Ho Hm. unfold Resolver._get_capirca_platform, Resolver.getitem.
    by rewrite Hv, Ho, Hm.
  - unfold Resolver._get_capirca_platform, Resolver.getitem.
    intros [H | [H | H]]; rewrite H.
    + by eexists.
    + destruct (g !! "vendor") as [[]|]; simpl; by eexists.
    + destruct (g !! "vendor") as [[]|]; simpl; try by eexists.
      destruct (g !! "os") as [[]|]; simpl; by eexists.
  - intros H. unfold Resolver._get_capirca_platform, Resolver.getitem.
    by rewrite H.
  - intros v Hv Ho. unfold Resolver._get_capirca_platform, Resolver.getitem.
    by rewrite Hv, Ho.
  - intros v o Hv Ho Hm. unfold Resolver._get_capirca_platform, Resolver.getitem.
    by rewrite Hv, Ho, Hm.
  - intros e kw s He. split_and!.
    + intros filter_name term_name Hpos.
      by rewrite load_term_config_eq, Hpos, He.
    + intros filter_name Hpos.
      by rewrite load_filter_config_eq, Hpos, He.
    + by rewrite load_policy_config_eq, He.
Qed.

Lemma invoke_run (c : invocation) (s : state) :
  invoke __salt__ c s =
    ((__salt__ c (world s)).1, State (__salt__ c (world s)).2 (calls s ++ [c])).
Proof.
  unfold invoke, call. destruct c as [f a k]; simpl.
  by destruct (__salt__ _ (world s)).
Qed.

Lemma get_filter_pillar_eq (filter_name : pyval) (kw : gmap string pyval) (s : state) :
  get_filter_pillar filter_name kw s =
    match no_var_keyword get_pillar_named kw with
    | Raise e => (Raise e, s)
    | Ok _ =>
        invoke __salt__
          (Invocation "capirca.get_filter_pillar" [filter_name]
             (keywords [("pillar_key", kwarg kw "pillar_key" (PyStr "acl"));
                        ("pillarenv", kwarg kw "pillarenv" PyNone);
                        ("saltenv", kwarg kw "saltenv" PyNone)])) s
    end.
Proof.
  unfold Netacl.get_filter_pillar, mbind, M_bind, lift.
  by destruct (no_var_keyword _ kw).
Qed.

Lemma get_term_pillar_eq (filter_name term_name : pyval)
    (kw : gmap string pyval) (s : state) :
  get_term_pillar filter_name term_name kw s =
    match no_var_keyword get_pillar_named kw with
    | Raise e => (Raise e, s)
    | Ok _ =>
        invoke __salt__
          (Invocation "capirca.get_term_pillar" [filter_name; term_name]
             (keywords [("pillar_key", kwarg kw "pillar_key" (PyStr "acl"));
                        ("pillarenv", kwarg kw "pillarenv" PyNone);
                        ("saltenv", kwarg kw "saltenv" PyNone)])) s
    end.
Proof.
  unfold Netacl.get_term_pillar, mbind, M_bind, lift.
  by destruct (no_var_keyword _ kw).
Qed.

(** A helper that either stops at the binding of its arguments or makes the
    one call [c]: what it returns, what it logs and what it leaves. *)
Lemma single_call_frame {Part : Type} (part : World → Part)
    (bound : result unit) (c : invocation) (s : state) :
  part (__salt__ c (world s)).2 = part (world s) →
  let run := match bound with
             | Raise e => (Raise e, s)
             | Ok _ => invoke __salt__ c s
             end in
  (bound = Ok tt →
   run.1 = (__salt__ c (world s)).1 ∧ world run.2 = (__salt__ c (world s)).2
   ∧ new_calls s run.2 = [c])
  ∧ (∀ c', c' ∈ new_calls s run.2 → c' = c)
  ∧ part (world run.2) = part (world s).
Proof.
  intros Hpart run. subst run. destruct bound as [[]|e].
  - rewrite invoke_run. simpl. rewrite new_calls_app. split_and!.
    + done.
    + intros c' Hc'. by apply list_elem_of_singleton in Hc'.
    + done.
  - simpl. rewrite new_calls_refl. split_and!.
    + done.
    + intros c' Hc'. by apply elem_of_nil in Hc'.
    + done.
Qed.

(** C6. [get_filter_pillar] and [get_term_pillar] make one call, to the
    pillar accessor of the same name, with the caller's arguments
    ([pillar_key] being [acl] when not given), and return what it returns.
    No other collaborator is called, and whatever part of the world the
    accessor leaves as it is (the pillar store, the device) is left as it is
    by the helper. *)
Theorem pillar_helpers_only_read {Part : Type} (part : World → Part)
    (kw : gmap string pyval) (s : state) :
  (∀ c w, fn c = "capirca.get_filter_pillar" ∨ fn c = "capirca.get_term_pillar" →
          part (__salt__ c w).2 = part w) →
  let k := keywords [("pillar_key", default (PyStr "acl") (kw !! "pillar_key"));
                     ("pillarenv", default PyNone (kw !! "pillarenv"));
                     ("saltenv", default PyNone (kw !! "saltenv"))] in
  let delegates (run : result pyval * state) (c : invocation) :=
    (no_var_keyword get_pillar_named kw = Ok tt →
     run.1 = (__salt__ c (world s)).1 ∧ world run.2 = (__salt__ c (world s)).2
     ∧ new_calls s run.2 = [c])
    ∧ (∀ c', c' ∈ new_calls s run.2 → c' = c)
    ∧ part (world run.2) = part (world s) in
  (∀ filter_name,
     delegates (get_filter_pillar filter_name kw s)
       (Invocation "capirca.get_filter_pillar" [filter_name] k))
  ∧ (∀ filter_name term_name,
     delegates (get_term_pillar filter_name term_name kw s)
       (Invocation "capirca.get_term_pillar" [filter_name; term_name] k)).
Proof.
  intros Hread k delegates. split.
  - intros filter_name. unfold delegates. rewrite get_filter_pillar_eq.
    apply (single_call_frame part). apply Hread. by left.
  - intros filter_name term_name. unfold delegates. rewrite get_term_pillar_eq.
    apply (single_call_frame part). apply Hread. by right.
Qed.

Lemma head_compile_then_apply (c : invocation) (kw : gmap string pyval) (s : state) :
  head (new_calls s (compile_then_apply c kw s).2) = Some c.
Proof.
  rewrite compile_then_apply_run.
  destruct (__salt__ c (world s)) as [[text|e] w1].
  - cbv zeta. destruct (__salt__ _ w1) as [r w2]. simpl. by rewrite new_calls_app.
  - simpl. by rewrite new_calls_app.
Qed.

Lemma kwarg_agree (kw kw' : gmap string pyval) (name : string) (d : pyval) :
  kw !! name = kw' !! name → kwarg kw name d = kwarg kw' name d.
Proof. unfold kwarg. by intros ->. Qed.

Lemma positional_agree (names : list string) (kw kw' : gmap string pyval) :
  (∀ k, k ∈ names → kw !! k = kw' !! k) →
  positional names kw = positional names kw'.
Proof.
  intros H. unfold positional.
  enough (forallb (λ k, bool_decide (kw !! k = None)) names
          = forallb (λ k, bool_decide (kw' !! k = None)) names) as -> by done.
  induction names as [|n names IH]; [done|]. simpl.
  rewrite (H n) by left. f_equal. apply IH. intros k Hk. apply H. by right.
Qed.

Ltac agree :=
  repeat match goal with
         | |- context [kwarg ?kw ?name ?d] =>
             lazymatch goal with
             | H' : ∀ k, k ∈ _ → kw !! k = ?kw' !! k |- _ =>
                 rewrite (kwarg_agree kw kw' name d)
                   by (apply H'; unfold load_filter_config_named,
                       load_policy_config_named; set_solver)
             end
         end.

Lemma extra_keywords_lookup (named : list string) (kw : gmap string pyval)
    (k : string) :
  extra_keywords named kw !! k = if decide (k ∈ named) then None else kw !! k.
Proof.
  unfold extra_keywords. destruct (kw !! k) as [v|] eqn:E.
  - destruct (decide (k ∈ named)) as [Hin|Hout].
    + apply map_lookup_filter_None. right. intros v' _. simpl. tauto.
    + apply map_lookup_filter_Some. by split.
  - destruct (decide _); apply map_lookup_filter_None; by left.
Qed.

(** On a fixed device handle, the bodies of [load_filter_config] and
    [load_policy_config] drop the keywords that their signatures do not
    name, and the body of [load_term_config] hands them to its compiler. *)
Lemma bodies_drop_extra_keywords (kw : gmap string pyval) (s : state) :
  (∀ filter_name kw',
     (∀ k, k ∈ "filter_name" :: load_filter_config_named → kw !! k = kw' !! k) →
     load_filter_config filter_name kw s = load_filter_config filter_name kw' s)
  ∧ (∀ kw',
     (∀ k, k ∈ load_policy_config_named → kw !! k = kw' !! k) →
     load_policy_config kw s = load_policy_config kw' s)
  ∧ (∀ filter_name term_name p,
     positional ["filter_name"; "term_name"] kw = Ok tt →
     Resolver._get_capirca_platform __grains__ = Ok p →
     ∃ c, head (new_calls s (load_term_config filter_name term_name kw s).2) = Some c
          ∧ fn c = "capirca.get_term_config"
          ∧ ∀ k, k ∉ load_term_config_named → kwargs c !! k = kw !! k).
Proof.
  split_and!.
  - intros filter_name kw' H.
    rewrite !load_filter_config_eq.
    rewrite (positional_agree _ kw kw') by (intros k Hk; apply H; set_solver).
    destruct (positional _ kw'); [|done].
    destruct (Resolver._get_capirca_platform __grains__) as [p|e]; [|done].
    unfold Netacl.compile_then_apply, filter_call. agree. reflexivity.
  - intros kw' H.
    rewrite !load_policy_config_eq.
    destruct (Resolver._get_capirca_platform __grains__) as [p|e]; [|done].
    unfold Netacl.compile_then_apply, policy_call. agree. reflexivity.
  - intros filter_name term_name p Hpos Hp.
    exists (term_call p filter_name term_name kw).
    rewrite load_term_config_eq, Hpos, Hp, head_compile_then_apply.
    split_and!; [done|done|].
    intros k Hk. unfold term_call. cbn [kwargs].
    rewrite lookup_union, extra_keywords_lookup.
    destruct (decide (k ∈ load_term_config_named)) as [Hin|_]; [done|].
    unfold keywords.
    rewrite (not_elem_of_list_to_map_1 _ k);
      [by destruct (kw !! k)|].
    intros Hin. apply Hk. cbn [fmap list_fmap fst] in Hin.
    unfold load_term_config_named. set_solver.
Qed.

(** C10, amended. The compiler receives, for [filter_options], [terms] and
    [filters], the caller's value (None when not given) when it is truthy
    and the empty list when it is falsy; None, the empty list, the empty
    string, 0 and False are falsy. So it receives a list whenever the caller
    gave a list or a falsy value. *)
Theorem falsy_arguments_become_empty_list (kw : gmap string pyval) (s : state)
    (p : string) :
  Resolver._get_capirca_platform __grains__ = Ok p →
  let received (run : result pyval * state) (name : string) :=
    head (new_calls s run.2) ≫= λ c, kwargs c !! name in
  let expected (name : string) :=
    let v := default PyNone (kw !! name) in
    Some (if truthy v then v else PyList []) in
  (∀ filter_name term_name,
     positional ["filter_name"; "term_name"] kw = Ok tt →
     received (load_term_config filter_name term_name kw s) "filter_options"
       = expected "filter_options")
  ∧ (∀ filter_name,
     positional ["filter_name"] kw = Ok tt →
     received (load_filter_config filter_name kw s) "filter_options"
       = expected "filter_options"
     ∧ received (load_filter_config filter_name kw s) "terms" = expected "terms")
  ∧ received (load_policy_config kw s) "filters" = expected "filters"
  ∧ (∀ name, is_list (default PyNone (kw !! name)) = true
             ∨ truthy (default PyNone (kw !! name)) = false →
             ∃ l, expected name = Some (PyList l))
  ∧ truthy PyNone = false ∧ truthy (PyList []) = false ∧ truthy (PyStr "") = false
  ∧ truthy (PyInt 0) = false ∧ truthy (PyBool false) = false.
Proof.
  intros Hp received expected. unfold received, expected.
  split_and!; try reflexivity.
  - intros filter_name term_name Hpos.
    rewrite load_term_config_eq, Hpos, Hp, head_compile_then_apply.
    cbn [mbind option_bind term_call kwargs]. rewrite lookup_union.
    rewrite extra_keywords_lookup.
    destruct (decide _) as [_|Hout];
      [|exfalso; apply Hout; unfold load_term_config_named; set_solver].
    unfold normalised, kwarg. simpl.
    by destruct (truthy _).
  - intros filter_name Hpos.
    rewrite load_filter_config_eq, Hpos, Hp, head_compile_then_apply.
    cbn [mbind option_bind filter_call kwargs].
    unfold normalised, kwarg. split.
    + change (Some (if negb (truthy (default PyNone (kw !! "filter_options")))
                    then PyList [] else default PyNone (kw !! "filter_options"))
              = Some (if truthy (default PyNone (kw !! "filter_options"))
                      then default PyNone (kw !! "filter_options") else PyList [])).
      by destruct (truthy _).
    + change (Some (if negb (truthy (default PyNone (kw !! "terms")))
                    then PyList [] else default PyNone (kw !! "terms"))
              = Some (if truthy (default PyNone (kw !! "terms"))
                      then default PyNone (kw !! "terms") else PyList [])).
      by destruct (truthy _).
  - rewrite load_policy_config_eq, Hp, head_compile_then_apply.
    cbn [mbind option_bind policy_call kwargs].
    unfold normalised, kwarg.
    change (Some (if negb (truthy (default PyNone (kw !! "filters")))
                  then PyList [] else default PyNone (kw !! "filters"))
            = Some (if truthy (default PyNone (kw !! "filters"))
                    then default PyNone (kw !! "filters") else PyList [])).
    by destruct (truthy _).
  - intros name [Hl | Hf].
    + destruct (default PyNone (kw !! name)) as [| | | |l| |]; try discriminate Hl.
      destruct l; simpl; by eexists.
    + rewrite Hf. by eexists.
Qed.

End Generic.

(** C8. [__virtual__] answers with the virtual name, which registers the
    module, exactly when every import of Capirca and the import of
    [napalm_base] succeeded; otherwise it answers [(False, message)] and the
    module is not registered. The answer is computed from the two flags set
    when the module is imported; the operations of the module do not test
    them. *)
Theorem registers_iff_both_importable (importable : string → bool) :
  let v := __virtual__ (HAS_CAPIRCA importable) (HAS_NAPALM importable) in
  let both :=
    (importable "capirca" = true ∧ importable "capirca.aclgen" = true
     ∧ importable "capirca.lib.policy" = true
     ∧ importable "capirca.lib.aclgenerator" = true)
    ∧ importable "napalm_base" = true in
  (registered_as v = Some "netacl" ↔ both)
  ∧ (v = PyStr __virtualname__ ↔ both)
  ∧ (¬ both →
     v = PyTuple [PyBool false; PyStr unavailable_message]
     ∧ registered_as v = None).
Proof.
  intros v both. subst v both. unfold __virtual__, HAS_CAPIRCA, HAS_NAPALM.
  cbn [forallb].
  destruct (importable "capirca"), (importable "capirca.aclgen"),
    (importable "capirca.lib.policy"), (importable "capirca.lib.aclgenerator"),
    (importable "napalm_base"); cbn;
    (split_and!; [split; intros H | split; intros H | intros H]);
    try discriminate H; try done; try (exfalso; apply H; done);
    try (destruct H as [(? & ? & ? & ?) ?]; discriminate).
Qed.

Lemma registers_iff_both_importable_witness :
  __virtual__ (HAS_CAPIRCA (λ _, false)) (HAS_NAPALM (λ _, false))
  = PyTuple [PyBool false; PyStr unavailable_message]
  ∧ registered_as (__virtual__ (HAS_CAPIRCA (λ _, true)) (HAS_NAPALM (λ _, true)))
    = Some "netacl".
Proof.
  split.
  - destruct (registers_iff_both_importable (λ _, false)) as (_ & _ & H).
    apply H. intros [_ E]. discriminate E.
  - destruct (registers_iff_both_importable (λ _, true)) as (H & _).
    apply H. done.
Defined.

End NetaclProps.

(** ** The modelled collaborators *)

Module SpecModelProps.
Import Netacl SpecModel.

(** *** The merge *)

Lemma has_entry_In (name : string) (es : list entry) :
  has_entry name es = true ↔ ∃ payload, In (name, payload) es.
Proof.
  unfold has_entry. rewrite existsb_exists. split.
  - intros [[n v] [Hin Heq]]. apply String.eqb_eq in Heq. simpl in Heq. subst n.
    by exists v.
  - intros [v Hin]. exists (name, v). split; [done|]. apply String.eqb_refl.
Qed.

Lemma lookup_entry_absent (name : string) (es : list entry) :
  has_entry name es = false → lookup_entry name es = None.
Proof.
  unfold has_entry, lookup_entry. induction es as [|e es IH]; [done|].
  simpl. destruct (String.eqb name e.1); [done|]. exact IH.
Qed.

Lemma all_new_sym (caller pillar : list entry) :
  all_new caller pillar = true → all_new pillar caller = true.
Proof.
  unfold all_new. rewrite !forallb_forall. intros H [n v] Hin.
  apply negb_true_iff. destruct (has_entry (n, v).1 caller) eqn:E; [|done].
  apply has_entry_In in E as [v' Hin'].
  specialize (H _ Hin'). apply negb_true_iff in H.
  assert (has_entry n pillar = true) as Hn by (apply has_entry_In; by exists v).
  simpl in H. congruence.
Qed.

(** When the caller brings new entries only, the merge is a concatenation:
    the caller's entries first with [prepend], last without. *)
Lemma merge_entries_all_new (prepend : bool) (caller pillar : list entry) :
  all_new caller pillar = true →
  merge_entries prepend caller pillar
  = if prepend then (caller ++ pillar)%list else (pillar ++ caller)%list.
Proof.
  intros Hnew. unfold merge_entries.
  assert (List.filter (λ e : entry, negb (has_entry e.1 pillar)) caller = caller)
    as ->.
  { unfold all_new in Hnew. clear -Hnew.
    induction caller as [|e caller IH]; [done|]. simpl in *.
    apply andb_true_iff in Hnew as [He Hrest]. rewrite He. f_equal. by apply IH. }
  assert (map (λ e : entry, (e.1, default e.2 (lookup_entry e.1 caller)) : entry)
            pillar = pillar) as ->.
  { apply all_new_sym in Hnew. unfold all_new in Hnew. clear -Hnew.
    induction pillar as [|[n v] pillar IH]; [done|]. simpl in *.
    apply andb_true_iff in Hnew as [He Hrest].
    apply negb_true_iff in He. rewrite (lookup_entry_absent _ _ He). simpl.
    f_equal. by apply IH. }
  done.
Qed.

(** In general the merge keeps the pillar's entries in the pillar's order
    and the caller's new entries in the caller's order; nothing is sorted. *)
Lemma merge_entries_names (prepend : bool) (caller pillar : list entry) :
  let new := List.filter (λ e : entry, negb (has_entry e.1 pillar)) caller in
  map fst (merge_entries prepend caller pillar)
  = if prepend then (map fst new ++ map fst pillar)%list
    else (map fst pillar ++ map fst new)%list.
Proof.
  unfold merge_entries.
  destruct prepend; cbv zeta; rewrite map_app, map_map; reflexivity.
Qed.

(** Giving the entries of the caller other payloads changes neither their
    names nor which of them are new. *)
Lemma repayload_names (h : entry → pyval) (caller : list entry) :
  map fst (map (λ t : entry, (t.1, h t) : entry) caller) = map fst caller.
Proof. rewrite map_map. reflexivity. Qed.

Lemma repayload_new_names (h : entry → pyval) (caller pillar : list entry) :
  map fst (List.filter (λ e : entry, negb (has_entry e.1 pillar))
             (map (λ t : entry, (t.1, h t) : entry) caller))
  = map fst (List.filter (λ e : entry, negb (has_entry e.1 pillar)) caller).
Proof.
  induction caller as [|t caller IH]; [done|]. simpl.
  destruct (negb (has_entry t.1 pillar)); simpl; by rewrite IH.
Qed.

Lemma repayload_all_new (h : entry → pyval) (caller pillar : list entry) :
  all_new caller pillar = true →
  (∀ t, lookup_entry t.1 pillar = None → h t = t.2) →
  map (λ t : entry, (t.1, h t) : entry) caller = caller.
Proof.
  unfold all_new. intros Hnew Hh.
  induction caller as [|[n v] caller IH]; [done|]. simpl in *.
  apply andb_true_iff in Hnew as [He Hrest]. apply negb_true_iff in He.
  rewrite (Hh (n, v)) by (by apply lookup_entry_absent).
  simpl. f_equal. by apply IH.
Qed.

Lemma merged_terms_all_new (prepend : bool) (caller pillar : list entry) :
  all_new caller pillar = true →
  merged_terms prepend false caller pillar
  = if prepend then (caller ++ pillar)%list else (pillar ++ caller)%list.
Proof.
  intros Hnew. unfold merged_terms, lower_terms.
  rewrite (repayload_all_new _ caller pillar Hnew).
  - by apply merge_entries_all_new.
  - by intros t ->.
Qed.

Lemma merged_filters_all_new (prepend : bool) (caller pillar : list entry) :
  all_new caller pillar = true →
  merged_filters prepend false caller pillar
  = if prepend then (caller ++ pillar)%list else (pillar ++ caller)%list.
Proof.
  intros Hnew. unfold merged_filters.
  rewrite (repayload_all_new _ caller pillar Hnew).
  - by apply merge_entries_all_new.
  - by intros t ->.
Qed.

Lemma merged_terms_names (prepend : bool) (caller pillar : list entry) :
  let new := List.filter (λ e : entry, negb (has_entry e.1 pillar)) caller in
  map fst (merged_terms prepend false caller pillar)
  = if prepend then (map fst new ++ map fst pillar)%list
    else (map fst pillar ++ map fst new)%list.
Proof.
  unfold merged_terms, lower_terms. cbv zeta.
  rewrite merge_entries_names. cbv zeta. by rewrite repayload_new_names.
Qed.

Lemma merged_filters_names (prepend : bool) (caller pillar : list entry) :
  let new := List.filter (λ e : entry, negb (has_entry e.1 pillar)) caller in
  map fst (merged_filters prepend false caller pillar)
  = if prepend then (map fst new ++ map fst pillar)%list
    else (map fst pillar ++ map fst new)%list.
Proof.
  unfold merged_filters. cbv zeta.
  rewrite merge_entries_names. cbv zeta. by rewrite repayload_new_names.
Qed.

Section Rendering.

Variable supported : string → bool.
Variable render_term : string → string → pyval → result string.
Variable render_header : string → string → pyval → string.

#[local] Abbreviation salt := (__salt__ supported render_term render_header).

(** With [merge_pillar=False] a compiler neither reads the pillar nor
    depends on it, and leaves the world as it is. *)
Lemma compiler_without_pillar (c : invocation) (w : site) (p' : gmap string pyval) :
  is_compiler (fn c) →
  kwargs c !! "merge_pillar" = Some (PyBool false) →
  (salt c w).2 = w ∧ salt c (with_pillar p' w) = ((salt c w).1, with_pillar p' w).
Proof.
  intros Hfn Hm. unfold __salt__.
  destruct Hfn as [H | [H | H]]; rewrite H; simpl.
  - unfold get_term_config, kwarg. rewrite Hm. simpl.
    repeat case_match; done.
  - unfold get_filter_config, kwarg. rewrite Hm. simpl.
    repeat case_match; done.
  - unfold get_policy_config, kwarg. rewrite Hm. simpl.
    repeat case_match; done.
Qed.

(** [net.load_config] does not look at the pillar. *)
Lemma load_config_frame (c : invocation) (w : site) (p' : gmap string pyval) :
  fn c = "net.load_config" →
  pillar_reads (salt c w).2 = pillar_reads w
  ∧ salt c (with_pillar p' w) = ((salt c w).1, with_pillar p' (salt c w).2).
Proof.
  intros H. unfold __salt__. rewrite H. simpl.
  unfold load_config, with_pillar. cbn [pillar pillar_reads device].
  destruct (args c); [|done].
  destruct (kwargs c !! "text") as [[]|]; try done.
  cbn [fst snd]. split; [by repeat case_match|].
  destruct (truthy (kwarg (kwargs c) "test" (PyBool false))); [done|].
  destruct (truthy (kwarg (kwargs c) "commit" (PyBool true))); done.
Qed.

Lemma compile_then_apply_without_pillar (dev : pyval) (c : invocation)
    (kw : gmap string pyval) (w : site) (tr : list invocation)
    (p' : gmap string pyval) :
  is_compiler (fn c) →
  kwargs c !! "merge_pillar" = Some (PyBool false) →
  let run := compile_then_apply salt dev c kw (State w tr) in
  let run' := compile_then_apply salt dev c kw (State (with_pillar p' w) tr) in
  run'.1 = run.1
  ∧ calls run'.2 = calls run.2
  ∧ world run'.2 = with_pillar p' (world run.2)
  ∧ pillar_reads (world run.2) = pillar_reads w
  ∧ ∀ c', c' ∈ new_calls (State w tr) run.2 →
          is_compiler (fn c') ∨ fn c' = "net.load_config".
Proof.
  intros Hfn Hm run run'. subst run run'.
  rewrite !NetaclProps.compile_then_apply_run. cbn [world calls].
  destruct (compiler_without_pillar c w p' Hfn Hm) as [Hw Hp]. rewrite Hp.
  destruct (salt c w) as [[text|e] w1] eqn:E; simpl in Hw; subst w1; cbn [fst snd].
  - set (a := apply_call dev text _ _ _).
    destruct (load_config_frame a w p' eq_refl) as [Hr Ha]. rewrite Ha.
    destruct (salt a w) as [r w2]; simpl in *.
    split_and!; try done.
    intros c'. unfold new_calls. cbn [calls]. rewrite drop_app_length.
    intros Hc'. apply elem_of_cons in Hc' as [-> | Hc']; [by left|].
    apply list_elem_of_singleton in Hc' as ->. by right.
  - simpl. split_and!; try done.
    intros c'. unfold new_calls. cbn [calls]. rewrite drop_app_length.
    intros Hc'. apply list_elem_of_singleton in Hc' as ->. by left.
Qed.

Lemma term_call_merge_pillar (p : string) (filter_name term_name : pyval)
    (kw : gmap string pyval) :
  kwargs (term_call p filter_name term_name kw) !! "merge_pillar"
  = Some (kwarg kw "merge_pillar" (PyBool true)).
Proof.
  unfold term_call. cbn [kwargs]. rewrite lookup_union.
  by destruct (extra_keywords _ kw !! "merge_pillar").
Qed.

Lemma failed_run_without_pillar (e : exn) (w : site) (tr : list invocation)
    (p' : gmap string pyval) :
  let run := (Raise e : result pyval, State w tr) in
  let run' := (Raise e : result pyval, State (with_pillar p' w) tr) in
  run'.1 = run.1
  ∧ calls run'.2 = calls run.2
  ∧ world run'.2 = with_pillar p' (world run.2)
  ∧ pillar_reads (world run.2) = pillar_reads w
  ∧ ∀ c', c' ∈ new_calls (State w tr) run.2 →
          is_compiler (fn c') ∨ fn c' = "net.load_config".
Proof.
  simpl. split_and!; try done.
  intros c'. rewrite NetaclProps.new_calls_refl. intros H.
  by apply elem_of_nil in H.
Qed.

Lemma not_an_accessor (f : string) :
  is_compiler f ∨ f = "net.load_config" →
  f ≠ "capirca.get_filter_pillar" ∧ f ≠ "capirca.get_term_pillar".
Proof. intros [[-> | [-> | ->]] | ->]; done. Qed.

(** C7. On the modelled collaborators: a generator called with
    [merge_pillar=False] does not call the pillar accessors, the pillar is
    read zero times, and two runs from worlds that differ in the pillar
    store only end with the same value, the same log and the same world up
    to that store. *)
Theorem merge_pillar_false_ignores_pillar (g : gmap string pyval) (dev : pyval)
    (kw : gmap string pyval) (w : site) (tr : list invocation)
    (p' : gmap string pyval) :
  kw !! "merge_pillar" = Some (PyBool false) →
  let independent (f : state → result pyval * state) :=
    let run := f (State w tr) in
    let run' := f (State (with_pillar p' w) tr) in
    run'.1 = run.1
    ∧ calls run'.2 = calls run.2
    ∧ world run'.2 = with_pillar p' (world run.2)
    ∧ pillar_reads (world run.2) = pillar_reads w
    ∧ ∀ c, c ∈ new_calls (State w tr) run.2 →
           fn c ≠ "capirca.get_filter_pillar" ∧ fn c ≠ "capirca.get_term_pillar" in
  (∀ filter_name term_name,
     independent (load_term_config salt g dev filter_name term_name kw))
  ∧ (∀ filter_name, independent (load_filter_config salt g dev filter_name kw))
  ∧ independent (load_policy_config salt g dev kw).
Proof.
  intros Hm independent.
  assert (Hweaken : ∀ run run' : result pyval * state,
            (run'.1 = run.1 ∧ calls run'.2 = calls run.2
             ∧ world run'.2 = with_pillar p' (world run.2)
             ∧ pillar_reads (world run.2) = pillar_reads w
             ∧ ∀ c', c' ∈ new_calls (State w tr) run.2 →
                     is_compiler (fn c') ∨ fn c' = "net.load_config") →
            run'.1 = run.1 ∧ calls run'.2 = calls run.2
            ∧ world run'.2 = with_pillar p' (world run.2)
            ∧ pillar_reads (world run.2) = pillar_reads w
            ∧ ∀ c, c ∈ new_calls (State w tr) run.2 →
                   fn c ≠ "capirca.get_filter_pillar"
                   ∧ fn c ≠ "capirca.get_term_pillar").
  { intros run run' (H1 & H2 & H3 & H4 & H5). split_and!; try done.
    intros c Hc. by apply not_an_accessor, H5. }
  split_and!.
  - intros filter_name term_name. unfold independent. apply Hweaken.
    rewrite !NetaclProps.load_term_config_eq.
    destruct (positional _ kw); [|apply failed_run_without_pillar].
    destruct (Resolver._get_capirca_platform g) as [p|e];
      [|apply failed_run_without_pillar].
    apply compile_then_apply_without_pillar; [by left|].
    rewrite term_call_merge_pillar. unfold kwarg. by rewrite Hm.
  - intros filter_name. unfold independent. apply Hweaken.
    rewrite !NetaclProps.load_filter_config_eq.
    destruct (positional _ kw); [|apply failed_run_without_pillar].
    destruct (Resolver._get_capirca_platform g) as [p|e];
      [|apply failed_run_without_pillar].
    apply compile_then_apply_without_pillar; [by right; left|].
    unfold filter_call, kwarg. rewrite Hm. reflexivity.
  - unfold independent. apply Hweaken.
    rewrite !NetaclProps.load_policy_config_eq.
    destruct (Resolver._get_capirca_platform g) as [p|e];
      [|apply failed_run_without_pillar].
    apply compile_then_apply_without_pillar; [by right; right|].
    unfold policy_call, kwarg. rewrite Hm. reflexivity.
Qed.

(** *** From the caller's entries to the text that is loaded *)

Lemma filter_call_kwargs (p : string) (filter_name : pyval) (kw : gmap string pyval)
    (d : pyval) :
  let k := kwargs (filter_call p filter_name kw) in
  kwarg k "terms" d = normalised (kwarg kw "terms" PyNone)
  ∧ kwarg k "prepend" d = kwarg kw "prepend" (PyBool true)
  ∧ kwarg k "filter_options" d = normalised (kwarg kw "filter_options" PyNone)
  ∧ kwarg k "pillar_key" d = kwarg kw "pillar_key" (PyStr "acl")
  ∧ kwarg k "merge_pillar" d = kwarg kw "merge_pillar" (PyBool true)
  ∧ kwarg k "only_lower_merge" d = kwarg kw "only_lower_merge" (PyBool false).
Proof. split_and!; reflexivity. Qed.

Lemma policy_call_kwargs (p : string) (kw : gmap string pyval) (d : pyval) :
  let k := kwargs (policy_call p kw) in
  kwarg k "filters" d = normalised (kwarg kw "filters" PyNone)
  ∧ kwarg k "prepend" d = kwarg kw "prepend" (PyBool true)
  ∧ kwarg k "pillar_key" d = kwarg kw "pillar_key" (PyStr "acl")
  ∧ kwarg k "merge_pillar" d = kwarg kw "merge_pillar" (PyBool true)
  ∧ kwarg k "only_lower_merge" d = kwarg kw "only_lower_merge" (PyBool false).
Proof. split_and!; reflexivity. Qed.

Lemma new_calls_compile_then_apply (dev : pyval) (c : invocation)
    (kw : gmap string pyval) (s : state) (text : pyval) (w1 : site) :
  salt c (world s) = (Ok text, w1) →
  new_calls s (compile_then_apply salt dev c kw s).2
  = [c; apply_call dev text (kwarg kw "test" (PyBool false))
          (kwarg kw "commit" (PyBool true)) (kwarg kw "debug" (PyBool false))].
Proof.
  intros Hc. rewrite NetaclProps.compile_then_apply_run, Hc. cbv zeta.
  destruct (salt _ w1) as [r w2]. simpl. by rewrite NetaclProps.new_calls_app.
Qed.

(** A text that was generated is the header followed by the texts of the
    terms, one per term, in the order of the list. *)
Lemma render_terms_blocks (p : string) (terms : list entry) (blocks : list string) :
  render_terms render_term p terms = Ok blocks →
  Forall2 (λ (t : entry) (b : string), render_term p t.1 t.2 = Ok b) terms blocks.
Proof.
  revert blocks. induction terms as [|t terms IH]; intros blocks H; simpl in H.
  - injection H as <-. constructor.
  - destruct (render_term p t.1 t.2) as [b|e] eqn:Eb; [|discriminate H].
    cbn in H. destruct (render_terms render_term p terms) as [bs|e];
      [|discriminate H].
    cbn in H. injection H as <-. constructor; [done|]. by apply IH.
Qed.

Lemma filter_text_blocks (p f : string) (options : pyval) (terms : list entry)
    (text : string) :
  filter_text render_term render_header p f options terms = Ok text →
  ∃ blocks,
    Forall2 (λ (t : entry) (b : string), render_term p t.1 t.2 = Ok b) terms blocks
    ∧ text = (render_header p f options ++ String.concat "" blocks)%string.
Proof.
  unfold filter_text. intros H.
  destruct (render_terms render_term p terms) as [blocks|e] eqn:E;
    [|discriminate H].
  cbn in H. injection H as <-. exists blocks. split; [|done].
  by apply render_terms_blocks.
Qed.

Lemma policy_text_texts (p : string) (filters : list entry) (text : string) :
  policy_text render_term render_header p filters = Ok text →
  ∃ texts,
    Forall2 (λ (f : entry) (t : string),
               filter_text render_term render_header p f.1
                 (dict_get "options" f.2) (entries (dict_get "terms" f.2)) = Ok t)
      filters texts
    ∧ text = String.concat "" texts.
Proof.
  unfold policy_text. intros H.
  destruct (filter_texts render_term render_header p filters) as [texts|e] eqn:E;
    [|discriminate H].
  cbn in H. injection H as <-. exists texts. split; [|done].
  clear -E. revert texts E.
  induction filters as [|f filters IH]; intros texts E; simpl in E.
  - injection E as <-. constructor.
  - destruct (filter_text _ _ p f.1 _ _) as [t|e] eqn:Et; [|discriminate E].
    cbn in E. destruct (filter_texts _ _ p filters) as [ts|e]; [|discriminate E].
    cbn in E. injection E as <-. constructor; [done|]. by apply IH.
Qed.

Lemma load_filter_config_text (g : gmap string pyval) (dev : pyval)
    (kw : gmap string pyval) (w : site) (tr : list invocation) (p f text : string) :
  Resolver._get_capirca_platform g = Ok p →
  positional ["filter_name"] kw = Ok tt →
  truthy (kwarg kw "merge_pillar" (PyBool true)) = true →
  supported p = true →
  let s := State w tr in
  let prepend := truthy (kwarg kw "prepend" (PyBool true)) in
  let only_lower := truthy (kwarg kw "only_lower_merge" (PyBool false)) in
  let in_pillar := (filter_pillar (PyStr f) (kwarg kw "pillar_key" (PyStr "acl")) w).1 in
  filter_text render_term render_header p f
    (merged_options prepend only_lower
       (normalised (kwarg kw "filter_options" PyNone)) (dict_get "options" in_pillar))
    (merged_terms prepend only_lower
       (entries (normalised (kwarg kw "terms" PyNone)))
       (entries (dict_get "terms" in_pillar))) = Ok text →
  new_calls s (load_filter_config salt g dev (PyStr f) kw s).2
  = [filter_call p (PyStr f) kw;
     apply_call dev (PyStr text) (kwarg kw "test" (PyBool false))
       (kwarg kw "commit" (PyBool true)) (kwarg kw "debug" (PyBool false))].
Proof.
  intros Hp Hpos Hm Hsup s prepend only_lower in_pillar Htext.
  rewrite NetaclProps.load_filter_config_eq, Hpos, Hp.
  apply (new_calls_compile_then_apply dev _ kw s (PyStr text)
           (filter_pillar (PyStr f) (kwarg kw "pillar_key" (PyStr "acl")) w).2).
  change (salt (filter_call p (PyStr f) kw) (world s))
    with (get_filter_config supported render_term render_header [PyStr p; PyStr f]
            (kwargs (filter_call p (PyStr f) kw)) w).
  unfold get_filter_config.
  destruct (filter_call_kwargs p (PyStr f) kw PyNone) as (-> & _ & -> & _ & _ & _).
  destruct (filter_call_kwargs p (PyStr f) kw (PyBool true))
    as (_ & -> & _ & _ & -> & _).
  destruct (filter_call_kwargs p (PyStr f) kw (PyBool false))
    as (_ & _ & _ & _ & _ & ->).
  destruct (filter_call_kwargs p (PyStr f) kw (PyStr "acl")) as (_ & _ & _ & -> & _).
  rewrite Hm. subst prepend only_lower in_pillar.
  destruct (filter_pillar _ _ w) as [fp w']. cbn [fst snd] in *.
  unfold compiled. by rewrite Hsup, Htext.
Qed.

Lemma load_policy_config_text (g : gmap string pyval) (dev : pyval)
    (kw : gmap string pyval) (w : site) (tr : list invocation) (p text : string) :
  Resolver._get_capirca_platform g = Ok p →
  truthy (kwarg kw "merge_pillar" (PyBool true)) = true →
  supported p = true →
  let s := State w tr in
  let prepend := truthy (kwarg kw "prepend" (PyBool true)) in
  let only_lower := truthy (kwarg kw "only_lower_merge" (PyBool false)) in
  policy_text render_term render_header p
    (merged_filters prepend only_lower
       (entries (normalised (kwarg kw "filters" PyNone)))
       (read_policy (kwarg kw "pillar_key" (PyStr "acl")) w).1) = Ok text →
  new_calls s (load_policy_config salt g dev kw s).2
  = [policy_call p kw;
     apply_call dev (PyStr text) (kwarg kw "test" (PyBool false))
       (kwarg kw "commit" (PyBool true)) (kwarg kw "debug" (PyBool false))].
Proof.
  intros Hp Hm Hsup s prepend only_lower Htext.
  rewrite NetaclProps.load_policy_config_eq, Hp.
  apply (new_calls_compile_then_apply dev _ kw s (PyStr text)
           (read_policy (kwarg kw "pillar_key" (PyStr "acl")) w).2).
  change (salt (policy_call p kw) (world s))
    with (get_policy_config supported render_term render_header [PyStr p]
            (kwargs (policy_call p kw)) w).
  unfold get_policy_config.
  destruct (policy_call_kwargs p kw PyNone) as (-> & _ & _ & _ & _).
  destruct (policy_call_kwargs p kw (PyBool true)) as (_ & -> & _ & -> & _).
  destruct (policy_call_kwargs p kw (PyBool false)) as (_ & _ & _ & _ & ->).
  destruct (policy_call_kwargs p kw (PyStr "acl")) as (_ & _ & -> & _ & _).
  rewrite Hm. subst prepend only_lower.
  cbn [read_policy fst snd] in *.
  unfold compiled. by rewrite Hsup, Htext.
Qed.

(** C5. On the modelled compiler, for a platform that it supports and with
    [merge_pillar]. Where the lists are merged ([only_lower_merge] false) the
    caller's new entries stand before the pillar's with [prepend] and after
    them without, each group in the order it came in: pillar [A, B] and
    caller [C] give [C, A, B] and [A, B, C]. With [only_lower_merge] the
    lists are not merged and the entries are the caller's, in the caller's
    order. Nothing is ever sorted. The generators hand [terms], [filters],
    [prepend] and [only_lower_merge] to the compiler as the caller gave
    them, and a text that the compiler generates, which is the text that
    reaches [net.load_config], prints the merged entries one after the
    other in the order of the merged list. *)
Theorem prepend_controls_order (g : gmap string pyval) (dev : pyval)
    (kw : gmap string pyval) (w : site) (tr : list invocation) (p : string) :
  Resolver._get_capirca_platform g = Ok p →
  truthy (kwarg kw "merge_pillar" (PyBool true)) = true →
  supported p = true →
  let s := State w tr in
  let prepend := truthy (kwarg kw "prepend" (PyBool true)) in
  let only_lower := truthy (kwarg kw "only_lower_merge" (PyBool false)) in
  let key := kwarg kw "pillar_key" (PyStr "acl") in
  let loaded (text : string) :=
    apply_call dev (PyStr text) (kwarg kw "test" (PyBool false))
      (kwarg kw "commit" (PyBool true)) (kwarg kw "debug" (PyBool false)) in
  (∀ (b : bool) (caller pillar : list entry), all_new caller pillar = true →
     merged_terms b false caller pillar
     = (if b then (caller ++ pillar)%list else (pillar ++ caller)%list)
     ∧ merged_filters b false caller pillar
       = (if b then (caller ++ pillar)%list else (pillar ++ caller)%list))
  ∧ (∀ (b : bool) (caller pillar : list entry),
       let new := List.filter (λ e : entry, negb (has_entry e.1 pillar)) caller in
       let names := if b then (map fst new ++ map fst pillar)%list
                    else (map fst pillar ++ map fst new)%list in
       map fst (merged_terms b false caller pillar) = names
       ∧ map fst (merged_filters b false caller pillar) = names)
  ∧ (∀ (b : bool) (caller pillar : list entry),
       map fst (merged_terms b true caller pillar) = map fst caller
       ∧ map fst (merged_filters b true caller pillar) = map fst caller)
  ∧ (∀ f text, positional ["filter_name"] kw = Ok tt →
       let in_pillar := (filter_pillar (PyStr f) key w).1 in
       let options :=
         merged_options prepend only_lower
           (normalised (kwarg kw "filter_options" PyNone))
           (dict_get "options" in_pillar) in
       let merged :=
         merged_terms prepend only_lower
           (entries (normalised (kwarg kw "terms" PyNone)))
           (entries (dict_get "terms" in_pillar)) in
       filter_text render_term render_header p f options merged = Ok text →
       new_calls s (load_filter_config salt g dev (PyStr f) kw s).2
       = [filter_call p (PyStr f) kw; loaded text]
       ∧ ∃ blocks,
           Forall2 (λ (t : entry) (b : string), render_term p t.1 t.2 = Ok b)
             merged blocks
           ∧ text = (render_header p f options ++ String.concat "" blocks)%string)
  ∧ (∀ text,
       let merged :=
         merged_filters prepend only_lower
           (entries (normalised (kwarg kw "filters" PyNone)))
           (read_policy key w).1 in
       policy_text render_term render_header p merged = Ok text →
       new_calls s (load_policy_config salt g dev kw s).2
       = [policy_call p kw; loaded text]
       ∧ ∃ texts,
           Forall2 (λ (f : entry) (t : string),
                      filter_text render_term render_header p f.1
                        (dict_get "options" f.2)
                        (entries (dict_get "terms" f.2)) = Ok t)
             merged texts
           ∧ text = String.concat "" texts).
Proof.
  intros Hp Hm Hsup s prepend only_lower key loaded. split_and!.
  - intros b caller pillar Hnew. split.
    + by apply merged_terms_all_new.
    + by apply merged_filters_all_new.
  - intros b caller pillar new names. split.
    + apply merged_terms_names.
    + apply merged_filters_names.
  - intros b caller pillar. split.
    + unfold merged_terms, lower_terms. apply repayload_names.
    + unfold merged_filters. apply repayload_names.
  - intros f text Hpos in_pillar options merged Htext. split.
    + apply (load_filter_config_text g dev kw w tr p f text Hp Hpos Hm Hsup Htext).
    + by apply filter_text_blocks.
  - intros text merged Htext. split.
    + apply (load_policy_config_text g dev kw w tr p text Hp Hm Hsup Htext).
    + by apply policy_text_texts.
Qed.

End Rendering.

End SpecModelProps.

(** ** The module on the modelled collaborators *)

Module DemoProps.
Import Netacl SpecModel.


Lemma resolver_total_or_fatal_witness :
  (∃ p, Resolver._get_capirca_platform demo_grains = Ok p)
  ∧ Resolver._get_capirca_platform (delete "os" demo_grains) = Raise (KeyError "os")
  ∧ load_policy_config demo_salt ∅ PyNone ∅ (State demo_world [])
    = (Raise (KeyError "vendor"), State demo_world []).
Proof.
  split_and!.
  - destruct (NetaclProps.resolver_total_or_fatal demo_salt ∅ PyNone demo_grains)
      as (H & _).
    apply (H "Debian" "Linux" "VM"). apply ResolverProps.populated_facts.
  - destruct (NetaclProps.resolver_total_or_fatal demo_salt ∅ PyNone
                (delete "os" demo_grains)) as (_ & _ & _ & _ & H & _).
    apply (H "Debian"); reflexivity.
  - destruct (NetaclProps.resolver_total_or_fatal demo_salt ∅ PyNone ∅)
      as (_ & _ & _ & _ & _ & _ & H).
    apply (H (KeyError "vendor") ∅ (State demo_world [])). reflexivity.
Defined.

(** The modelled accessors leave the pillar store and the device as they
    are. *)
Lemma accessors_keep_store (sup : string → bool)
    (rt : string → string → pyval → result string)
    (rh : string → string → pyval → string) (c : invocation) (w : site) :
  fn c = "capirca.get_filter_pillar" ∨ fn c = "capirca.get_term_pillar" →
  let w' := (__salt__ sup rt rh c w).2 in
  (pillar w', device w') = (pillar w, device w).
Proof.
  intros [H | H]; unfold __salt__; rewrite H; simpl.
  - unfold get_filter_pillar. destruct (args c) as [|a [|b l]]; reflexivity.
  - unfold get_term_pillar. destruct (args c) as [|a [|b [|d l]]]; reflexivity.
Qed.

Lemma pillar_helpers_only_read_witness :
  let s := State demo_world [] in
  let run := Netacl.get_term_pillar demo_salt (PyStr "f1") (PyStr "A") ∅ s in
  run.1 = Ok (PyDict [(PyStr "action", PyStr "accept")])
  ∧ pillar (world run.2) = demo_pillar
  ∧ device (world run.2) = "".
Proof.
  intros s run.
  destruct (NetaclProps.pillar_helpers_only_read demo_salt
              (λ w, (pillar w, device w)) ∅ s (accessors_keep_store _ _ _))
    as (_ & H).
  destruct (H (PyStr "f1") (PyStr "A")) as (Hcall & _ & Hpart).
  destruct (Hcall eq_refl) as (Hval & _ & _).
  split_and!.
  - etrans; [exact Hval|]. vm_compute. reflexivity.
  - exact (f_equal fst Hpart).
  - exact (f_equal snd Hpart).
Defined.

(** C10, as stated, fails: a value that is truthy and not a list, such as
    the string [inet6] given for [filter_options], reaches the compiler as it
    is. *)
Lemma compiler_always_receives_list_fails :
  ¬ (∀ (kw : gmap string pyval) (s : state) (c : invocation),
       head (new_calls s
               (load_term_config demo_salt demo_grains PyNone (PyStr "f1")
                  (PyStr "t1") kw s).2) = Some c →
       ∃ l, kwargs c !! "filter_options" = Some (PyList l)).
Proof.
  intros H.
  destruct (H {[ "filter_options" := PyStr "inet6" ]} (State demo_world [])
              (term_call "iptables" (PyStr "f1") (PyStr "t1")
                 {[ "filter_options" := PyStr "inet6" ]}))
    as [l Hl].
  - vm_compute. reflexivity.
  - vm_compute in Hl. discriminate Hl.
Qed.

Lemma falsy_arguments_become_empty_list_witness :
  let s := State demo_world [] in
  let kw : gmap string pyval := {[ "filter_options" := PyStr ""; "terms" := PyInt 0 ]} in
  (head (new_calls s (load_filter_config demo_salt demo_grains PyNone
                        (PyStr "f1") kw s).2) ≫= λ c, kwargs c !! "filter_options")
  = Some (PyList [])
  ∧ (head (new_calls s (load_filter_config demo_salt demo_grains PyNone
                        (PyStr "f1") kw s).2) ≫= λ c, kwargs c !! "terms")
  = Some (PyList []).
Proof.
  intros s kw.
  destruct (NetaclProps.falsy_arguments_become_empty_list demo_salt demo_grains
              PyNone kw s "iptables" eq_refl) as (_ & H & _).
  destruct (H (PyStr "f1") eq_refl) as (Ho & Ht).
  split; [exact Ho | exact Ht].
Defined.

Lemma prepend_controls_order_witness :
  let s := State demo_world [] in
  let A := ("A", PyDict [(PyStr "action", PyStr "accept")]) in
  let B := ("B", PyDict [(PyStr "action", PyStr "accept")]) in
  let C := ("C", PyDict [(PyStr "action", PyStr "accept")]) in
  let loaded (kw : gmap string pyval) :=
    last (new_calls s (load_filter_config demo_salt demo_grains PyNone
                         (PyStr "f1") kw s).2) ≫= λ a, kwargs a !! "text" in
  merged_terms true false [C] [A; B] = [C; A; B]
  ∧ merged_terms false false [C] [A; B] = [A; B; C]
  ∧ loaded {[ "terms" := PyList [term "C"] ]}
    = Some (PyStr "iptables filter f1:term C;term A;term B;")
  ∧ loaded {[ "terms" := PyList [term "C"]; "prepend" := PyBool false ]}
    = Some (PyStr "iptables filter f1:term A;term B;term C;")
  ∧ loaded {[ "terms" := PyList [term "C"]; "only_lower_merge" := PyBool true ]}
    = Some (PyStr "iptables filter f1:term C;").
Proof.
  intros s A B C loaded.
  pose proof (SpecModelProps.prepend_controls_order demo_supported
                demo_render_term demo_render_header demo_grains PyNone
                {[ "terms" := PyList [term "C"] ]} demo_world [] "iptables"
                eq_refl eq_refl eq_refl) as (Hcat & _ & _ & Hfilter & _).
  pose proof (SpecModelProps.prepend_controls_order demo_supported
                demo_render_term demo_render_header demo_grains PyNone
                {[ "terms" := PyList [term "C"]; "prepend" := PyBool false ]}
                demo_world [] "iptables" eq_refl eq_refl eq_refl)
    as (_ & _ & _ & Hfilter' & _).
  pose proof (SpecModelProps.prepend_controls_order demo_supported
                demo_render_term demo_render_header demo_grains PyNone
                {[ "terms" := PyList [term "C"]; "only_lower_merge" := PyBool true ]}
                demo_world [] "iptables" eq_refl eq_refl eq_refl)
    as (_ & _ & _ & Hlower & _).
  split_and!.
  - apply (Hcat true [C] [A; B]). reflexivity.
  - apply (Hcat false [C] [A; B]). reflexivity.
  - destruct (Hfilter "f1" "iptables filter f1:term C;term A;term B;" eq_refl)
      as [Hlog _]; [vm_compute; reflexivity|].
    unfold loaded, s, demo_salt. rewrite Hlog. vm_compute. reflexivity.
  - destruct (Hfilter' "f1" "iptables filter f1:term A;term B;term C;" eq_refl)
      as [Hlog _]; [vm_compute; reflexivity|].
    unfold loaded, s, demo_salt. rewrite Hlog. vm_compute. reflexivity.
  - destruct (Hlower "f1" "iptables filter f1:term C;" eq_refl)
      as [Hlog _]; [vm_compute; reflexivity|].
    unfold loaded, s, demo_salt. rewrite Hlog. vm_compute. reflexivity.
Defined.

Lemma merge_pillar_false_ignores_pillar_witness :
  let kw : gmap string pyval :=
    {[ "merge_pillar" := PyBool false; "terms" := PyList [term "C"] ]} in
  let run := load_filter_config demo_salt demo_grains PyNone (PyStr "f1") kw
               (State demo_world []) in
  let run' := load_filter_config demo_salt demo_grains PyNone (PyStr "f1") kw
                (State (with_pillar ∅ demo_world) []) in
  run'.1 = run.1 ∧ pillar_reads (world run.2) = 0%nat.
Proof.
  intros kw run run'.
  destruct (SpecModelProps.merge_pillar_false_ignores_pillar demo_supported
              demo_render_term demo_render_header demo_grains PyNone kw
              demo_world [] ∅ eq_refl)
    as (_ & H & _).
  destruct (H (PyStr "f1")) as (Hval & _ & _ & Hreads & _).
  split; [exact Hval | exact Hreads].
Defined.

End DemoProps.

(** * Further properties of the module *)

(** ** The platform resolver *)

Module ResolverExtra.
Import Resolver.

(** A successful run tells that the three facts are strings. *)
Lemma resolver_ok_populated (g : gmap string pyval) (p : string) :
  _get_capirca_platform g = Ok p →
  ∃ v o m, populated g v o m.
Proof.
  unfold _get_capirca_platform, getitem, populated. intros H.
  destruct (g !! "vendor") as [[| | |v| | |]|]; try discriminate H.
  destruct (g !! "os") as [[| | |o| | |]|]; try discriminate H.
  destruct (g !! "model") as [[| | |m| | |]|]; try discriminate H.
  by exists v, o, m.
Qed.

(** X1. The resolver does not see the case of the facts: two sets of facts
    that agree once lowercased resolve alike; in particular the facts and
    their lowercase forms do. *)
Theorem resolver_case_insensitive (g g' : gmap string pyval)
    (v o m v' o' m' : string) :
  populated g v o m →
  populated g' v' o' m' →
  lower v = lower v' → lower o = lower o' → lower m = lower m' →
  _get_capirca_platform g = _get_capirca_platform g'
  ∧ _get_capirca_platform g
    = _get_capirca_platform (facts (lower v) (lower o) (lower m)).
Proof.
  intros Hp Hp' Hv Ho Hm. split.
  - rewrite (ResolverProps.resolver_populated g v o m Hp).
    rewrite (ResolverProps.resolver_populated g' v' o' m' Hp').
    by rewrite Hv, Ho, Hm.
  - rewrite (ResolverProps.resolver_populated g v o m Hp).
    rewrite (ResolverProps.resolver_populated _ _ _ _
               (ResolverProps.populated_facts (lower v) (lower o) (lower m))).
    by rewrite !lower_idemp.
Qed.

Lemma resolver_case_insensitive_witness :
  _get_capirca_platform (facts "CISCO" "IosXR" "ASR9K")
  = _get_capirca_platform (facts "cisco" "iosxr" "asr9k").
Proof.
  apply (resolver_case_insensitive (facts "CISCO" "IosXR" "ASR9K")
           (facts "cisco" "iosxr" "asr9k") "CISCO" "IosXR" "ASR9K"
           "cisco" "iosxr" "asr9k");
    first [apply ResolverProps.populated_facts | reflexivity].
Defined.

(** X2. Whatever the facts, a platform id that the resolver returns is in
    lowercase. *)
Theorem resolver_result_lowercase (g : gmap string pyval) (p : string) :
  _get_capirca_platform g = Ok p → lower p = p.
Proof.
  intros H. destruct (resolver_ok_populated g p H) as (v & o & m & Hp).
  rewrite (ResolverProps.resolver_populated g v o m Hp) in H.
  injection H as <-. cbn [first_match rule_table].
  repeat match goal with
         | |- context [if ?b then _ else _] => destruct b; [reflexivity|]
         end.
  apply lower_idemp.
Qed.

Lemma resolver_result_lowercase_witness : lower "arista" = "arista".
Proof.
  apply (resolver_result_lowercase (facts "Arista" "EOS" "DCS-7050")).
  reflexivity.
Defined.

(** X3. A fact that is present but is not a string (None, a number, a list)
    makes the resolver raise [AttributeError], not [KeyError]; the facts are
    read in the order vendor, os, model, so the first offending one decides:
    a non-string vendor raises whatever the other two are, even when they
    are missing. *)
Theorem resolver_rejects_non_strings (g : gmap string pyval) (x : pyval) :
  is_str x = false →
  (g !! "vendor" = Some x →
   _get_capirca_platform g = Raise (AttributeError "lower"))
  ∧ (∀ v, g !! "vendor" = Some (PyStr v) → g !! "os" = Some x →
     _get_capirca_platform g = Raise (AttributeError "lower"))
  ∧ (∀ v o, g !! "vendor" = Some (PyStr v) → g !! "os" = Some (PyStr o) →
     g !! "model" = Some x →
     _get_capirca_platform g = Raise (AttributeError "lower")).
Proof.
  intros Hx. unfold _get_capirca_platform, getitem. split_and!.
  - intros ->. by destruct x.
  - intros v -> ->. by destruct x.
  - intros v o -> -> ->. by destruct x.
Qed.

Lemma resolver_rejects_non_strings_witness :
  _get_capirca_platform {[ "vendor" := PyNone ]} = Raise (AttributeError "lower")
  ∧ _get_capirca_platform (<["model" := PyInt 7050]> (facts "Arista" "eos" ""))
    = Raise (AttributeError "lower").
Proof.
  split.
  - destruct (resolver_rejects_non_strings {[ "vendor" := PyNone ]} PyNone eq_refl)
      as (H & _).
    apply H. reflexivity.
  - destruct (resolver_rejects_non_strings
                (<["model" := PyInt 7050]> (facts "Arista" "eos" ""))
                (PyInt 7050) eq_refl) as (_ & _ & H).
    apply (H "Arista" "eos"); reflexivity.
Defined.

(** X4. The vendors that have rows of their own. A cisco device resolves to
    one of [cisco], [ciscoxr], [ciscoasa], [iptables], and to [cisco] when
    its os is none of iosxr, asa, linux (NX-OS, for one). A juniper device
    whose model does not contain [srx] resolves to [juniper] unless its os
    is linux. *)
Theorem vendor_rows_fall_back (g : gmap string pyval) (v o m : string) :
  populated g v o m →
  (lower v = "cisco" →
   (∃ p, _get_capirca_platform g = Ok p
         ∧ p ∈ ["cisco"; "ciscoxr"; "ciscoasa"; "iptables"])
   ∧ (lower o ≠ "iosxr" → lower o ≠ "asa" → lower o ≠ "linux" →
      _get_capirca_platform g = Ok "cisco"))
  ∧ (lower v = "juniper" → contains "srx" (lower m) = false →
     lower o ≠ "linux" →
     _get_capirca_platform g = Ok "juniper").
Proof.
  intros Hp. rewrite (ResolverProps.resolver_populated g v o m Hp).
  cbn [first_match rule_table]. split.
  - intros ->. cbn. split.
    + destruct (String.eqb (lower o) "ios");
        [eexists; split; [reflexivity | set_solver]|].
      destruct (String.eqb (lower o) "iosxr");
        [eexists; split; [reflexivity | set_solver]|].
      destruct (String.eqb (lower o) "asa");
        [eexists; split; [reflexivity | set_solver]|].
      destruct (String.eqb (lower o) "linux");
        eexists; (split; [reflexivity | set_solver]).
    + intros Hxr Hasa Hlinux.
      destruct (String.eqb (lower o) "ios"); [reflexivity|].
      apply String.eqb_neq in Hxr, Hasa, Hlinux.
      by rewrite Hxr, Hasa, Hlinux.
  - intros -> Hsrx Hlinux. rewrite Hsrx. cbn.
    apply String.eqb_neq in Hlinux. by rewrite Hlinux.
Qed.

Lemma vendor_rows_fall_back_witness :
  _get_capirca_platform (facts "Cisco" "NXOS" "N9K") = Ok "cisco"
  ∧ _get_capirca_platform (facts "Juniper" "junos" "MX480") = Ok "juniper".
Proof.
  split.
  - destruct (vendor_rows_fall_back _ "Cisco" "NXOS" "N9K"
                (ResolverProps.populated_facts _ _ _)) as (H & _).
    destruct (H eq_refl) as (_ & H'). apply H'; discriminate.
  - destruct (vendor_rows_fall_back _ "Juniper" "junos" "MX480"
                (ResolverProps.populated_facts _ _ _)) as (_ & H).
    apply H; [reflexivity | reflexivity | discriminate].
Defined.

End ResolverExtra.

(** ** The generators and the pillar helpers *)

Module NetaclExtra.
Import Netacl.

Section Generic.

Context {World : Type}.
Variable __salt__ : invocation → World → result pyval * World.
Variable __grains__ : gmap string pyval.
Variable napalm_device : pyval.

#[local] Abbreviation state := (@state World).
#[local] Abbreviation load_term_config :=
  (load_term_config __salt__ __grains__ napalm_device).
#[local] Abbreviation load_filter_config :=
  (load_filter_config __salt__ __grains__ napalm_device).
#[local] Abbreviation load_policy_config :=
  (load_policy_config __salt__ __grains__ napalm_device).
#[local] Abbreviation get_filter_pillar := (get_filter_pillar __salt__).
#[local] Abbreviation get_term_pillar := (get_term_pillar __salt__).
#[local] Abbreviation apply_call := (apply_call napalm_device).
#[local] Abbreviation compile_then_apply :=
  (compile_then_apply __salt__ napalm_device).

Lemma compile_then_apply_cases (c : invocation) (kw : gmap string pyval)
    (s : state) :
  let run := compile_then_apply c kw s in
  (∃ e w1, __salt__ c (world s) = (Raise e, w1)
           ∧ run = (Raise e, State w1 (calls s ++ [c])))
  ∨ (∃ text w1,
       let a := apply_call text (kwarg kw "test" (PyBool false))
                  (kwarg kw "commit" (PyBool true))
                  (kwarg kw "debug" (PyBool false)) in
       __salt__ c (world s) = (Ok text, w1)
       ∧ run = ((__salt__ a w1).1, State (__salt__ a w1).2 (calls s ++ [c; a]))).
Proof.
  cbv zeta. rewrite NetaclProps.compile_then_apply_run.
  destruct (__salt__ c (world s)) as [[text|e] w1].
  - right. exists text, w1. split; [done|]. cbv zeta.
    by destruct (__salt__ _ w1).
  - left. by exists e, w1.
Qed.

(** Open a run of a generator: the binding of the arguments, then the
    resolver, then compile-then-apply on the call of the compiler. *)
Ltac open_run H :=
  first [ rewrite NetaclProps.load_term_config_eq in H
        | rewrite NetaclProps.load_filter_config_eq in H
        | rewrite NetaclProps.load_policy_config_eq in H ];
  try (destruct (positional _ _) as [[]|?] eqn:?);
  try (destruct (Resolver._get_capirca_platform __grains__) as [?p|?] eqn:?).

Lemma compile_then_apply_failed (c0 : invocation) (kw : gmap string pyval)
    (s s' : state) (r : result pyval) (c : invocation) (e : exn) (w1 : World) :
  compile_then_apply c0 kw s = (r, s') →
  head (new_calls s s') = Some c →
  __salt__ c (world s) = (Raise e, w1) →
  c = c0 ∧ r = Raise e ∧ new_calls s s' = [c0] ∧ world s' = w1.
Proof.
  intros Hrun Hhead Hc.
  destruct (compile_then_apply_cases c0 kw s) as
    [(e0 & w0 & E0 & Hr) | (text & w0 & E0 & Hr)];
    rewrite Hr in Hrun; injection Hrun as <- <-;
    rewrite NetaclProps.new_calls_app in Hhead |- *;
    injection Hhead as <-; rewrite E0 in Hc.
  - by injection Hc as -> ->.
  - discriminate Hc.
Qed.

(** X5. When the compiler raises, the generator raises the same exception
    and stops there: the compiler call is the only call of the run,
    [net.load_config] is not reached, and the world is the one the compiler
    left. *)
Theorem compiler_failure_skips_apply (kw : gmap string pyval) (s s' : state)
    (r : result pyval) (c : invocation) (e : exn) (w1 : World) :
  head (new_calls s s') = Some c →
  __salt__ c (world s) = (Raise e, w1) →
  let stopped (name : string) :=
    fn c = name ∧ r = Raise e ∧ new_calls s s' = [c] ∧ world s' = w1 in
  (∀ filter_name term_name,
     load_term_config filter_name term_name kw s = (r, s') →
     stopped "capirca.get_term_config")
  ∧ (∀ filter_name,
     load_filter_config filter_name kw s = (r, s') →
     stopped "capirca.get_filter_config")
  ∧ (load_policy_config kw s = (r, s') →
     stopped "capirca.get_policy_config").
Proof.
  intros Hhead Hc stopped. unfold stopped.
  split_and!; [intros filter_name term_name Hrun | intros filter_name Hrun
              | intros Hrun];
    open_run Hrun;
    try (injection Hrun as <- <-;
         destruct (NetaclProps.head_new_calls_unchanged _ _ Hhead));
    destruct (compile_then_apply_failed _ kw s s' r c e w1 Hrun Hhead Hc)
      as (-> & -> & Hlog & <-); done.
Qed.


(** X7. The compiler is called on the platform that the resolver returned
    for the grains, followed by the filter name and the term name as the
    caller gave them. *)
Theorem compiler_receives_platform (kw : gmap string pyval) (s : state)
    (c : invocation) :
  (∀ filter_name term_name,
     head (new_calls s (load_term_config filter_name term_name kw s).2) = Some c →
     ∃ p, Resolver._get_capirca_platform __grains__ = Ok p
          ∧ args c = [PyStr p; filter_name; term_name])
  ∧ (∀ filter_name,
     head (new_calls s (load_filter_config filter_name kw s).2) = Some c →
     ∃ p, Resolver._get_capirca_platform __grains__ = Ok p
          ∧ args c = [PyStr p; filter_name])
  ∧ (head (new_calls s (load_policy_config kw s).2) = Some c →
     ∃ p, Resolver._get_capirca_platform __grains__ = Ok p
          ∧ args c = [PyStr p]).
Proof.
  split_and!; [intros filter_name term_name Hhead | intros filter_name Hhead
              | intros Hhead];
    open_run Hhead;
    try (destruct (NetaclProps.head_new_calls_unchanged _ _ Hhead));
    rewrite NetaclProps.head_compile_then_apply in Hhead;
    injection Hhead as <-; by eexists.
Qed.

Lemma dom_extra_keywords (named : list string) (kw : gmap string pyval) :
  dom (extra_keywords named kw) = dom kw ∖ (list_to_set named : gset string).
Proof.
  apply set_eq. intros k.
  rewrite elem_of_dom, NetaclProps.extra_keywords_lookup, elem_of_difference,
    elem_of_dom, elem_of_list_to_set.
  destruct (decide (k ∈ named)) as [Hin|Hout].
  - split; [by intros [? ?] | by intros [_ ?]].
  - by split; [|intros [? _]].
Qed.

(** X8. The keywords that reach the compiler. [capirca.get_filter_config]
    and [capirca.get_policy_config] receive the keywords written at the call
    site and no other; [capirca.get_term_config] receives its eleven
    keywords and the caller's keywords that the signature does not name. In
    no case do [test], [commit] or [debug] reach the compiler. *)
Theorem compiler_keywords (kw : gmap string pyval) (s : state) (c : invocation) :
  let no_flags :=
    kwargs c !! "test" = None ∧ kwargs c !! "commit" = None
    ∧ kwargs c !! "debug" = None in
  (∀ filter_name term_name,
     head (new_calls s (load_term_config filter_name term_name kw s).2) = Some c →
     dom (kwargs c)
     = list_to_set ["filter_options"; "pillar_key"; "pillarenv"; "saltenv";
                    "merge_pillar"; "revision_id"; "revision_no"; "revision_date";
                    "revision_date_format"; "source_service";
                    "destination_service"]
       ∪ (dom kw ∖ list_to_set load_term_config_named)
     ∧ no_flags)
  ∧ (∀ filter_name,
     head (new_calls s (load_filter_config filter_name kw s).2) = Some c →
     dom (kwargs c)
     = list_to_set ["terms"; "prepend"; "filter_options"; "pillar_key";
                    "pillarenv"; "saltenv"; "merge_pillar"; "only_lower_merge";
                    "revision_id"; "revision_no"; "revision_date";
                    "revision_date_format"]
     ∧ no_flags)
  ∧ (head (new_calls s (load_policy_config kw s).2) = Some c →
     dom (kwargs c)
     = list_to_set ["filters"; "prepend"; "pillar_key"; "pillarenv"; "saltenv";
                    "merge_pillar"; "only_lower_merge"; "revision_id";
                    "revision_no"; "revision_date"; "revision_date_format"]
     ∧ no_flags).
Proof.
  intros no_flags. unfold no_flags.
  split_and!; [intros filter_name term_name Hhead | intros filter_name Hhead
              | intros Hhead];
    open_run Hhead;
    try (destruct (NetaclProps.head_new_calls_unchanged _ _ Hhead));
    rewrite NetaclProps.head_compile_then_apply in Hhead;
    injection Hhead as <-.
  - unfold term_call. cbn [kwargs]. split.
    + rewrite dom_union_L, dom_extra_keywords. unfold keywords.
      by rewrite dom_list_to_map_L.
    + rewrite !lookup_union, !NetaclProps.extra_keywords_lookup.
      split_and!; reflexivity.
  - unfold filter_call. cbn [kwargs]. split.
    + unfold keywords. by rewrite dom_list_to_map_L.
    + split_and!; reflexivity.
  - unfold policy_call. cbn [kwargs]. split.
    + unfold keywords. by rewrite dom_list_to_map_L.
    + split_and!; reflexivity.
Qed.

(** On a fixed device handle: every call of [net.load_config] that a body
    makes has no positional argument and five keywords, the last one being
    that handle. *)
Lemma apply_receives_handle (kw : gmap string pyval) (s : state) (a : invocation) :
  fn a = "net.load_config" →
  let well_formed :=
    args a = []
    ∧ kwargs a !! "inherit_napalm_device" = Some napalm_device
    ∧ dom (kwargs a)
      = list_to_set ["text"; "test"; "commit"; "debug"; "inherit_napalm_device"] in
  (∀ filter_name term_name,
     a ∈ new_calls s (load_term_config filter_name term_name kw s).2 → well_formed)
  ∧ (∀ filter_name,
     a ∈ new_calls s (load_filter_config filter_name kw s).2 → well_formed)
  ∧ (a ∈ new_calls s (load_policy_config kw s).2 → well_formed).
Proof.
  intros Hfn well_formed.
  assert (Hgo : ∀ c, fn c ≠ "net.load_config" →
                     a ∈ new_calls s (compile_then_apply c kw s).2 → well_formed).
  { intros c Hc Hin.
    destruct (compile_then_apply_cases c kw s) as
      [(e0 & w0 & E0 & Hr) | (text & w0 & E0 & Hr)]; rewrite Hr in Hin;
      simpl in Hin; rewrite NetaclProps.new_calls_app in Hin.
    - apply list_elem_of_singleton in Hin as ->. done.
    - apply elem_of_cons in Hin as [-> | Hin]; [done|].
      apply list_elem_of_singleton in Hin as ->.
      unfold well_formed, Netacl.apply_call, keywords. cbn [args kwargs].
      split_and!; [done|done|]. by rewrite dom_list_to_map_L. }
  assert (Hstop : a ∈ new_calls s s → well_formed).
  { rewrite NetaclProps.new_calls_refl. intros H. by apply elem_of_nil in H. }
  split_and!; [intros filter_name term_name Hin | intros filter_name Hin
              | intros Hin];
    open_run Hin; try (by apply Hstop);
    (eapply Hgo; [|exact Hin]); discriminate.
Qed.

(** X12. [get_filter_pillar] and [get_term_pillar] have no [**kwargs]: a
    keyword other than [pillar_key], [pillarenv], [saltenv] is a
    [TypeError], raised before the accessor is called. *)
Theorem pillar_helpers_reject_unknown_keywords (kw : gmap string pyval)
    (s : state) (k : string) (v : pyval) :
  kw !! k = Some v →
  k ∉ get_pillar_named →
  (∀ filter_name, get_filter_pillar filter_name kw s = (Raise TypeError, s))
  ∧ (∀ filter_name term_name,
       get_term_pillar filter_name term_name kw s = (Raise TypeError, s)).
Proof.
  intros Hk Hout.
  assert (no_var_keyword get_pillar_named kw = Raise TypeError) as Hbound.
  { unfold no_var_keyword. rewrite bool_decide_eq_false_2; [done|].
    rewrite dom_extra_keywords. intros Hempty.
    assert (k ∈ dom kw ∖ (list_to_set get_pillar_named : gset string)) as Hin.
    { apply elem_of_difference. split; [by apply elem_of_dom|].
      by rewrite elem_of_list_to_set. }
    rewrite Hempty in Hin. by apply not_elem_of_empty in Hin. }
  split.
  - intros filter_name. by rewrite NetaclProps.get_filter_pillar_eq, Hbound.
  - intros filter_name term_name.
    by rewrite NetaclProps.get_term_pillar_eq, Hbound.
Qed.

Lemma extra_keywords_insert_named (named : list string) (kw : gmap string pyval)
    (name : string) (v : pyval) :
  name ∈ named →
  extra_keywords named (<[name := v]> kw) = extra_keywords named kw.
Proof.
  intros Hin. apply map_eq. intros k.
  rewrite !NetaclProps.extra_keywords_lookup.
  destruct (decide (k ∈ named)) as [_|Hout]; [done|].
  apply lookup_insert_ne. by intros ->.
Qed.

Lemma extra_keywords_delete_named (named : list string) (kw : gmap string pyval)
    (name : string) :
  name ∈ named →
  extra_keywords named (delete name kw) = extra_keywords named kw.
Proof.
  intros Hin. apply map_eq. intros k.
  rewrite !NetaclProps.extra_keywords_lookup.
  destruct (decide (k ∈ named)) as [_|Hout]; [done|].
  apply lookup_delete_ne. by intros ->.
Qed.

(** Split a membership in a list that is written out into its cases. *)
Ltac cases_of Hin :=
  repeat (apply elem_of_cons in Hin as [Hin | Hin];
          [injection Hin as -> ->|]);
  try (by apply elem_of_nil in Hin).

Ltac lookups Hnone :=
  unfold positional, term_call, filter_call, policy_call,
    Netacl.compile_then_apply, Netacl.apply_call, no_var_keyword, kwarg;
  cbn [forallb];
  rewrite ?lookup_insert_eq, ?lookup_delete_eq;
  rewrite ?lookup_insert_ne, ?lookup_delete_ne by discriminate;
  rewrite ?Hnone.

(** X9. The defaults of the signatures are what an omitted parameter
    counts as: giving a parameter its declared default explicitly, where the
    caller had not given it, changes nothing in the run (value, world and
    calls made), for the three generators and the two pillar helpers. *)
Theorem explicit_default_changes_nothing (kw : gmap string pyval) (s : state)
    (name : string) (d : pyval) :
  kw !! name = None →
  (∀ filter_name term_name, (name, d) ∈ load_term_config_defaults →
     load_term_config filter_name term_name (<[name := d]> kw) s
     = load_term_config filter_name term_name kw s)
  ∧ (∀ filter_name, (name, d) ∈ load_filter_config_defaults →
     load_filter_config filter_name (<[name := d]> kw) s
     = load_filter_config filter_name kw s)
  ∧ ((name, d) ∈ load_policy_config_defaults →
     load_policy_config (<[name := d]> kw) s = load_policy_config kw s)
  ∧ (∀ filter_name, (name, d) ∈ get_pillar_defaults →
     get_filter_pillar filter_name (<[name := d]> kw) s
     = get_filter_pillar filter_name kw s)
  ∧ (∀ filter_name term_name, (name, d) ∈ get_pillar_defaults →
     get_term_pillar filter_name term_name (<[name := d]> kw) s
     = get_term_pillar filter_name term_name kw s).
Proof.
  intros Hnone. split_and!.
  - intros filter_name term_name Hin. rewrite !NetaclProps.load_term_config_eq.
    unfold load_term_config_defaults in Hin. cases_of Hin;
      (unfold term_call;
       rewrite extra_keywords_insert_named
         by (unfold load_term_config_named; set_solver);
       lookups Hnone; reflexivity).
  - intros filter_name Hin. rewrite !NetaclProps.load_filter_config_eq.
    unfold load_filter_config_defaults in Hin. cases_of Hin;
      (lookups Hnone; reflexivity).
  - intros Hin. rewrite !NetaclProps.load_policy_config_eq.
    unfold load_policy_config_defaults in Hin. cases_of Hin;
      (lookups Hnone; reflexivity).
  - intros filter_name Hin. rewrite !NetaclProps.get_filter_pillar_eq.
    unfold get_pillar_defaults in Hin. cases_of Hin;
      (unfold no_var_keyword;
       rewrite extra_keywords_insert_named
         by (unfold get_pillar_named; set_solver);
       lookups Hnone; reflexivity).
  - intros filter_name term_name Hin. rewrite !NetaclProps.get_term_pillar_eq.
    unfold get_pillar_defaults in Hin. cases_of Hin;
      (unfold no_var_keyword;
       rewrite extra_keywords_insert_named
         by (unfold get_pillar_named; set_solver);
       lookups Hnone; reflexivity).
Qed.

Lemma normalised_falsy (v : pyval) : truthy v = false → normalised v = PyList [].
Proof. unfold normalised. by intros ->. Qed.

(** X10. For [filter_options], [terms] and [filters], a falsy value and no
    value at all are the same thing: the run with the parameter set to
    None, to the empty list, to the empty string, to 0 or to False is the run
    without the parameter. *)
Theorem falsy_value_is_omission (kw : gmap string pyval) (s : state) (v : pyval) :
  truthy v = false →
  (∀ filter_name term_name,
     load_term_config filter_name term_name (<["filter_options" := v]> kw) s
     = load_term_config filter_name term_name (delete "filter_options" kw) s)
  ∧ (∀ filter_name,
     load_filter_config filter_name (<["filter_options" := v]> kw) s
     = load_filter_config filter_name (delete "filter_options" kw) s)
  ∧ (∀ filter_name,
     load_filter_config filter_name (<["terms" := v]> kw) s
     = load_filter_config filter_name (delete "terms" kw) s)
  ∧ load_policy_config (<["filters" := v]> kw) s
    = load_policy_config (delete "filters" kw) s.
Proof.
  intros Hv. pose proof (normalised_falsy v Hv) as Hn.
  assert (normalised PyNone = PyList []) as Hnone by reflexivity.
  split_and!.
  - intros filter_name term_name. rewrite !NetaclProps.load_term_config_eq.
    unfold term_call.
    rewrite extra_keywords_insert_named, extra_keywords_delete_named
      by (unfold load_term_config_named; set_solver).
    lookups Hn. cbn [default from_option id]. rewrite Hn, Hnone. reflexivity.
  - intros filter_name. rewrite !NetaclProps.load_filter_config_eq.
    lookups Hn. cbn [default from_option id]. rewrite Hn, Hnone. reflexivity.
  - intros filter_name. rewrite !NetaclProps.load_filter_config_eq.
    lookups Hn. cbn [default from_option id]. rewrite Hn, Hnone. reflexivity.
  - rewrite !NetaclProps.load_policy_config_eq.
    lookups Hn. cbn [default from_option id]. rewrite Hn, Hnone. reflexivity.
Qed.

(** X13. The grains reach a generator through the resolver only: with two
    sets of grains that resolve alike (to the same platform or to the same
    exception) the runs are the same. *)
Theorem grains_matter_through_platform (g' : gmap string pyval)
    (kw : gmap string pyval) (s : state) :
  Resolver._get_capirca_platform g' = Resolver._get_capirca_platform __grains__ →
  (∀ filter_name term_name,
     Netacl.load_term_config __salt__ g' napalm_device filter_name term_name kw s
     = load_term_config filter_name term_name kw s)
  ∧ (∀ filter_name,
     Netacl.load_filter_config __salt__ g' napalm_device filter_name kw s
     = load_filter_config filter_name kw s)
  ∧ Netacl.load_policy_config __salt__ g' napalm_device kw s
    = load_policy_config kw s.
Proof.
  intros Hsame. split_and!.
  - intros filter_name term_name.
    by rewrite !NetaclProps.load_term_config_eq, Hsame.
  - intros filter_name. by rewrite !NetaclProps.load_filter_config_eq, Hsame.
  - by rewrite !NetaclProps.load_policy_config_eq, Hsame.
Qed.


End Generic.

End NetaclExtra.

(** ** The further properties on the modelled collaborators *)

Module DemoExtra.
Import Netacl SpecModel.

Lemma compiler_failure_skips_apply_witness :
  let s := State demo_world [] in
  let run := load_filter_config demo_salt demo_grains PyNone PyNone ∅ s in
  run.1 = Raise TypeError
  ∧ new_calls s run.2 = [filter_call "iptables" PyNone ∅]
  ∧ world run.2 = demo_world.
Proof.
  intros s run.
  destruct (NetaclExtra.compiler_failure_skips_apply demo_salt demo_grains PyNone
              ∅ s run.2 run.1 (filter_call "iptables" PyNone ∅) TypeError
              demo_world) as (_ & H & _).
  - vm_compute. reflexivity.
  - vm_compute. reflexivity.
  - destruct (H PyNone) as (_ & Hr & Hlog & Hw).
    + vm_compute. reflexivity.
    + split_and!; [exact Hr | exact Hlog | exact Hw].
Defined.

Lemma compiler_receives_platform_witness :
  ∃ p, Resolver._get_capirca_platform demo_grains = Ok p
       ∧ args (term_call "iptables" (PyStr "f1") (PyStr "t1") ∅)
         = [PyStr p; PyStr "f1"; PyStr "t1"].
Proof.
  destruct (NetaclExtra.compiler_receives_platform demo_salt demo_grains PyNone
              ∅ (State demo_world [])
              (term_call "iptables" (PyStr "f1") (PyStr "t1") ∅)) as (H & _).
  apply (H (PyStr "f1") (PyStr "t1")). vm_compute. reflexivity.
Defined.

Lemma compiler_keywords_witness :
  let kw : gmap string pyval := {[ "test" := PyBool true ]} in
  kwargs (filter_call "iptables" (PyStr "f1") kw) !! "test" = None.
Proof.
  intros kw.
  destruct (NetaclExtra.compiler_keywords demo_salt demo_grains PyNone kw
              (State demo_world []) (filter_call "iptables" (PyStr "f1") kw))
    as (_ & H & _).
  destruct (H (PyStr "f1")) as (_ & Htest & _); [|exact Htest].
  vm_compute. reflexivity.
Defined.

Lemma explicit_default_changes_nothing_witness :
  load_policy_config demo_salt demo_grains PyNone {[ "commit" := PyBool true ]}
    (State demo_world [])
  = load_policy_config demo_salt demo_grains PyNone ∅ (State demo_world []).
Proof.
  destruct (NetaclExtra.explicit_default_changes_nothing demo_salt demo_grains
              PyNone ∅ (State demo_world []) "commit" (PyBool true)
              (lookup_empty "commit")) as (_ & _ & H & _).
  rewrite <- H; [reflexivity|].
  unfold load_policy_config_defaults. do 12 apply list_elem_of_further.
  apply list_elem_of_here.
Defined.

Lemma falsy_value_is_omission_witness :
  load_filter_config demo_salt demo_grains PyNone (PyStr "f1")
    {[ "terms" := PyInt 0 ]} (State demo_world [])
  = load_filter_config demo_salt demo_grains PyNone (PyStr "f1") ∅
      (State demo_world []).
Proof.
  destruct (NetaclExtra.falsy_value_is_omission demo_salt demo_grains PyNone ∅
              (State demo_world []) (PyInt 0) eq_refl) as (_ & _ & H & _).
  exact (H (PyStr "f1")).
Defined.

Lemma pillar_helpers_reject_unknown_keywords_witness :
  Netacl.get_filter_pillar demo_salt (PyStr "f1") {[ "colour" := PyStr "red" ]}
    (State demo_world [])
  = (Raise TypeError, State demo_world []).
Proof.
  destruct (NetaclExtra.pillar_helpers_reject_unknown_keywords demo_salt
              {[ "colour" := PyStr "red" ]} (State demo_world []) "colour"
              (PyStr "red") (lookup_singleton_eq "colour" (PyStr "red")))
    as (H & _).
  - intros Hin. unfold get_pillar_named in Hin.
    repeat (apply elem_of_cons in Hin as [E | Hin]; [discriminate E|]).
    by apply elem_of_nil in Hin.
  - exact (H (PyStr "f1")).
Defined.

Lemma grains_matter_through_platform_witness :
  load_policy_config demo_salt (Resolver.facts "Canonical" "linux" "kvm") PyNone ∅
    (State demo_world [])
  = load_policy_config demo_salt demo_grains PyNone ∅ (State demo_world []).
Proof.
  destruct (NetaclExtra.grains_matter_through_platform demo_salt demo_grains
              PyNone (Resolver.facts "Canonical" "linux" "kvm") ∅
              (State demo_world []) eq_refl) as (_ & _ & H).
  exact H.
Defined.


End DemoExtra.

(** * The operations under the decorator *)

Module DecoratorProps.
Import Netacl.

Section Generic.

Context {World : Type}.
Variable __salt__ : invocation → World → result pyval * World.
Variable __grains__ : gmap string pyval.

#[local] Abbreviation state := (@state World).
#[local] Abbreviation body_filter := (load_filter_config __salt__ __grains__).
#[local] Abbreviation body_policy := (load_policy_config __salt__ __grains__).
#[local] Abbreviation netacl_load_term_config :=
  (netacl_load_term_config __salt__ __grains__).
#[local] Abbreviation netacl_load_filter_config :=
  (netacl_load_filter_config __salt__ __grains__).
#[local] Abbreviation netacl_load_policy_config :=
  (netacl_load_policy_config __salt__ __grains__).

Lemma same_up_to_device_refl (c : invocation) : same_up_to_device c c.
Proof. by split_and!. Qed.

Lemma apply_call_up_to_device (dev dev' text test commit debug : pyval) :
  same_up_to_device (apply_call dev text test commit debug)
    (apply_call dev' text test commit debug).
Proof.
  unfold same_up_to_device, apply_call, keywords. cbn [fn args kwargs].
  split_and!; [done|done|]. intros k Hk.
  cbn [list_to_map foldr uncurry fst snd].
  rewrite !lookup_insert. repeat case_decide; done.
Qed.

(** Compile-then-apply on two device handles, with the same flags: the
    compiler call is the same, and so are the calls up to the handle. *)
Lemma compile_then_apply_up_to_device (c : invocation) (kw kw' : gmap string pyval)
    (dev dev' : pyval) (s : state) :
  kwarg kw "test" (PyBool false) = kwarg kw' "test" (PyBool false) →
  kwarg kw "commit" (PyBool true) = kwarg kw' "commit" (PyBool true) →
  kwarg kw "debug" (PyBool false) = kwarg kw' "debug" (PyBool false) →
  let run := compile_then_apply __salt__ dev c kw s in
  let run' := compile_then_apply __salt__ dev' c kw' s in
  head (new_calls s run.2) = head (new_calls s run'.2)
  ∧ Forall2 same_up_to_device (new_calls s run.2) (new_calls s run'.2).
Proof.
  intros Ht Hc Hd. cbv zeta. rewrite !NetaclProps.compile_then_apply_run.
  rewrite <- Ht, <- Hc, <- Hd.
  destruct (__salt__ c (world s)) as [[text|e] w1]; cbv zeta.
  - destruct (__salt__ (apply_call dev _ _ _ _) w1) as [r w2].
    destruct (__salt__ (apply_call dev' _ _ _ _) w1) as [r' w2'].
    cbn [fst snd]. rewrite !NetaclProps.new_calls_app. split; [done|].
    constructor; [apply same_up_to_device_refl|].
    constructor; [apply apply_call_up_to_device|constructor].
  - cbn [fst snd]. rewrite !NetaclProps.new_calls_app. split; [done|].
    constructor; [apply same_up_to_device_refl|constructor].
Qed.

Lemma failed_up_to_device (s : state) :
  head (new_calls s s) = head (new_calls s s)
  ∧ Forall2 same_up_to_device (new_calls s s) (new_calls s s).
Proof. rewrite NetaclProps.new_calls_refl. split; [done|constructor]. Qed.

Ltac agree_on H :=
  repeat match goal with
         | |- context [kwarg ?kw ?name ?d] =>
             lazymatch type of H with
             | ∀ k, k ∈ _ → kw !! k = ?kw' !! k =>
                 rewrite (NetaclProps.kwarg_agree kw kw' name d)
                   by (apply H; unfold load_filter_config_named,
                       load_policy_config_named; set_solver)
             end
         end.

Lemma bound_device_agree (m : minion) (kw kw' : gmap string pyval) :
  kw !! "inherit_napalm_device" = kw' !! "inherit_napalm_device" →
  bound_device m kw = bound_device m kw'.
Proof. intros H. unfold bound_device, kwarg. by rewrite H. Qed.



End Generic.

End DecoratorProps.

(** ** The decorated operations on the modelled collaborators *)

Module DecoratorDemo.
Import Netacl SpecModel.




End DecoratorDemo.
